(** * disk.py: a parted/mkfs wrapper

    A shallow embedding of [src/disk.py] and the properties of its script
    parser, device naming, mount ordering, size computation and command
    runner.

    Conventions of the embedding:
    - a Python [str] is a [string] of code points below 256;
    - a Python [int] is a [Z];
    - a value that is either a [str] or [None] is an [option string];
    - code that raises returns in the [result] type, code that runs external
      programs lives in the state-and-exception monad [M] over the machine
      state and the log of what the run printed and executed. *)

From Stdlib Require Import ZArith List String Ascii Bool Lia.
From Stdlib Require Import Permutation Sorted.
From Stdlib Require Import Numbers.DecimalString.
From Stdlib Require Numbers.DecimalZ.
Import ListNotations.

Open Scope string_scope.
Open Scope Z_scope.

(** ** The Python built-ins that disk.py uses *)

Module Py.

Definition code (c : ascii) : N := N_of_ascii c.

Definition between (lo hi : N) (c : ascii) : bool :=
  ((lo <=? code c) && (code c <=? hi))%N.

(** [str.isspace] on one character, which is also what [str.split()] and
    the regular expression class [\s] use: TAB..CR, FS..US, SPACE, NEL and
    NBSP. *)
Definition isspace (c : ascii) : bool :=
  between 9 13 c || between 28 32 c || (code c =? 133)%N || (code c =? 160)%N.

Definition isdigit_ascii (c : ascii) : bool := between 48 57 c.

Definition isalpha_ascii (c : ascii) : bool :=
  between 65 90 c || between 97 122 c.

(** The regular expression class [\w] of a [str] pattern: alphanumeric
    characters and the underscore. *)
Definition isword (c : ascii) : bool :=
  isdigit_ascii c || isalpha_ascii c || (code c =? 95)%N
  || (code c =? 170)%N || (code c =? 178)%N || (code c =? 179)%N
  || (code c =? 181)%N || (code c =? 185)%N || (code c =? 186)%N
  || between 188 190 c || between 192 214 c || between 216 246 c
  || between 248 255 c.

(** [bool(s)] of a string: the empty string is falsy. *)
Definition truthy (s : string) : bool := negb (s =? "")%string.

(** [s.split(sep)] for a one-character separator. *)
Fixpoint split (sep : ascii) (s : string) : list string :=
  match s with
  | EmptyString => [""]
  | String c s' =>
      if Ascii.eqb c sep then "" :: split sep s'
      else match split sep s' with
           | h :: t => String c h :: t
           | [] => [String c ""]
           end
  end.

(** [s.split(sep, 1)]: at most one split, at the first separator. *)
Fixpoint split1 (sep : ascii) (s : string) : list string :=
  match s with
  | EmptyString => [""]
  | String c s' =>
      if Ascii.eqb c sep then [""; s']
      else match split1 sep s' with
           | h :: t => String c h :: t
           | [] => [String c ""]
           end
  end.

(** [s.split()]: the maximal runs of non-whitespace characters. [acc] is
    the run being read. *)
Fixpoint split_ws_acc (acc : string) (s : string) : list string :=
  match s with
  | EmptyString => if truthy acc then [acc] else []
  | String c s' =>
      if isspace c
      then (if truthy acc then acc :: split_ws_acc "" s'
            else split_ws_acc "" s')
      else split_ws_acc (acc ++ String c "") s'
  end.

Definition split_ws (s : string) : list string := split_ws_acc "" s.

(** [x in l] for a list of strings. *)
Definition contains (x : string) (l : list string) : bool :=
  existsb (String.eqb x) l.

(** [sep.join(l)]. *)
Fixpoint join (sep : string) (l : list string) : string :=
  match l with
  | [] => ""
  | [x] => x
  | x :: t => x ++ sep ++ join sep t
  end.

(** [str(n)] of an integer, as an f-string formats it. *)
Definition str_of_int (n : Z) : string :=
  NilEmpty.string_of_int (Z.to_int n).

(** [os.path.basename]: what follows the last slash. *)
Definition basename (path : string) : string :=
  last (split "/" path) "".

(** [s.startswith(p)]. *)
Definition startswith (p s : string) : bool := String.prefix p s.

(** The longest prefix whose characters satisfy [p], and the rest. *)
Fixpoint span (p : ascii -> bool) (s : string) : string * string :=
  match s with
  | EmptyString => ("", "")
  | String c s' =>
      if p c then let (a, b) := span p s' in (String c a, b)
      else ("", s)
  end.

(** One match of the pattern [(\w+)=([^\s]+)] anchored at the start of [s].
    Both groups are greedy; as [=] is not a word character, giving back
    part of the first group never helps, so the match is the maximal word,
    an equals sign, and the maximal non-blank run, which must not be
    empty. *)
Definition match_key_value (s : string) : option (string * string) :=
  let (k, r) := span isword s in
  if truthy k then
    match r with
    | String "="%char r' =>
        let (v, _) := span (fun c => negb (isspace c)) r' in
        if truthy v then Some (k, v) else None
    | _ => None
    end
  else None.

(** [re.findall(r"(\w+)=([^\s]+)", s)]: the matches from left to right,
    without overlap. [skip] counts the characters of the last match that
    are still to be passed. *)
Fixpoint findall_from (skip : nat) (s : string) : list (string * string) :=
  match s with
  | EmptyString => []
  | String _ s' =>
      match skip with
      | S k => findall_from k s'
      | O =>
          match match_key_value s with
          | Some (k, v) =>
              (k, v) :: findall_from (String.length k + String.length v) s'
          | None => findall_from 0 s'
          end
      end
  end.

Definition findall_key_value (s : string) : list (string * string) :=
  findall_from 0 s.

(** [dict(pairs).get(key, default)]: the last pair with this key wins. *)
Fixpoint dict_get (key default : string) (pairs : list (string * string))
  : string :=
  match pairs with
  | [] => default
  | (k, v) :: t => dict_get key (if (k =? key)%string then v else default) t
  end.

(** [all(p(c) for c in s)]. *)
Fixpoint all_chars (p : ascii -> bool) (s : string) : bool :=
  match s with
  | EmptyString => true
  | String c s' => p c && all_chars p s'
  end.

(** [sorted(l, key=key)]: a stable sort in ascending order of the key.
    An element goes in front of the sorted rest and stops before the first
    element whose key is not smaller, so that equal keys keep their
    order. *)
Section Sorted.
Context {A : Type} (key : A -> nat).

Fixpoint insert (x : A) (l : list A) : list A :=
  match l with
  | [] => [x]
  | y :: t => if (key x <=? key y)%nat then x :: l else y :: insert x t
  end.

Fixpoint sorted (l : list A) : list A :=
  match l with
  | [] => []
  | x :: t => insert x (sorted t)
  end.
End Sorted.

End Py.

(** ** dask.utils.parse_bytes

    disk.py reads byte counts with [dask.utils.parse_bytes], a function of
    the dask library and not of this repository. The development is carried
    out for an arbitrary such function (the variable [parse_bytes] of section
    [Disk]); the model below is used to run the code on concrete scripts. It
    follows the library on tokens made of an optional sign, decimal digits
    and a unit, where the library's floating-point product is exact (below
    2^53); it answers [None], the library's [ValueError], on every other
    token, among them the fractional ones that the library accepts. *)

Module Dask.

Definition byte_sizes : list (string * Z) :=
  [ ("kb", 10^3); ("mb", 10^6); ("gb", 10^9); ("tb", 10^12); ("pb", 10^15);
    ("kib", 2^10); ("mib", 2^20); ("gib", 2^30); ("tib", 2^40);
    ("pib", 2^50); ("b", 1); ("", 1);
    ("k", 10^3); ("m", 10^6); ("g", 10^9); ("t", 10^12); ("p", 10^15);
    ("ki", 2^10); ("mi", 2^20); ("gi", 2^30); ("ti", 2^40); ("pi", 2^50) ].

Fixpoint lookup (k : string) (l : list (string * Z)) : option Z :=
  match l with
  | [] => None
  | (k', v) :: t => if (k' =? k)%string then Some v else lookup k t
  end.

Definition lower_char (c : ascii) : ascii :=
  if Py.between 65 90 c then ascii_of_N (Py.code c + 32) else c.

Fixpoint lower (s : string) : string :=
  match s with
  | EmptyString => ""
  | String c s' => String (lower_char c) (lower s')
  end.

Fixpoint remove_spaces (s : string) : string :=
  match s with
  | EmptyString => ""
  | String c s' =>
      if Ascii.eqb c " " then remove_spaces s' else String c (remove_spaces s')
  end.

Fixpoint any (p : ascii -> bool) (s : string) : bool :=
  match s with
  | EmptyString => false
  | String c s' => p c || any p s'
  end.

Fixpoint rev (s : string) : string :=
  match s with
  | EmptyString => ""
  | String c s' => rev s' ++ String c ""
  end.

(** The value of a run of decimal digits, [acc] being the value read so
    far; [None] when a character is not a digit. *)
Fixpoint digits (acc : Z) (s : string) : option Z :=
  match s with
  | EmptyString => Some acc
  | String c s' =>
      if Py.isdigit_ascii c
      then digits (10 * acc + Z.of_N (Py.code c - 48)) s'
      else None
  end.

(** [float(prefix)] on an integer literal. *)
Definition number (prefix : string) : option Z :=
  match prefix with
  | EmptyString => None
  | String "-"%char ((String _ _) as d) => option_map Z.opp (digits 0 d)
  | String "+"%char ((String _ _) as d) => digits 0 d
  | d => digits 0 d
  end.

Definition parse_bytes (s : string) : option Z :=
  let s := remove_spaces s in
  let s := if any Py.isdigit_ascii s then s else "1" ++ s in
  (* the unit is the run of letters that ends the token *)
  let (xiffus, xiferp) := Py.span Py.isalpha_ascii (rev s) in
  match number (rev xiferp) with
  | None => None
  | Some n =>
      match lookup (lower (rev xiffus)) byte_sizes with
      | None => None
      | Some multiplier => Some (n * multiplier)
      end
  end.

End Dask.

(** ** Exceptions, results and the monad of a run *)

Inductive exn : Type :=
| AssertionError
| ValueError
| TypeError
| IndexError
| FileNotFoundError
| RuntimeError
| CalledProcessError
| SystemExit (code : Z)
| SystemExitUsage (message : string).

Inductive result (A : Type) : Type :=
| Ok (a : A)
| Raise (e : exn).
Arguments Ok {A} a.
Arguments Raise {A} e.

Definition rbind {A B : Type} (r : result A) (k : A -> result B) : result B :=
  match r with
  | Ok a => k a
  | Raise e => Raise e
  end.

(** What a run does that can be observed: the lines it prints and the
    programs it executes, with their argument vectors. *)
Inductive event : Type :=
| Print (line : string)
| Run (argv : list string).

(** The exit status of the interpreter: an uncaught exception and a
    [SystemExit] with a message give 1. *)
Definition exit_status {A : Type} (r : result A) : Z :=
  match r with
  | Ok _ => 0
  | Raise (SystemExit code) => code
  | Raise _ => 1
  end.

(** The programs that a log executed, in order. *)
Fixpoint executed (log : list event) : list (list string) :=
  match log with
  | [] => []
  | Run argv :: t => argv :: executed t
  | Print _ :: t => executed t
  end.

(** A list of [str]-or-[None] values as a list of strings, when none of
    them is [None]. *)
Fixpoint all_str (l : list (option string)) : option (list string) :=
  match l with
  | [] => Some []
  | Some x :: t => option_map (cons x) (all_str t)
  | None :: _ => None
  end.

Definition is_some {A : Type} (o : option A) : bool :=
  match o with
  | Some _ => true
  | None => false
  end.

(** The parameters for creating a filesystem. *)
Record _Mkfs : Type := Build_Mkfs {
  npart : Z;
  fs : string;
  label : string;
  reserved : string;
  mount : string;
  begin : Z;
  end_ : Z
}.

(** The state of a run: the machine, and what the run has done so far. *)
Record state (World : Type) : Type :=
  { world : World; log : list event }.
Arguments world {World} s.
Arguments log {World} s.

(** [size] rounded down to a multiple of [boundary]. *)
Definition align_down (size boundary : Z) : Z := size - size mod boundary.

(** The minimum size as the specification words it: the slack is added to
    the end offset of the last partition if that is not zero, else to its
    begin offset, and to zero when there is no partition. *)
Definition minimum_size_nonzero (filesystems : list _Mkfs) : Z :=
  let s := match rev filesystems with
           | [] => 0
           | mkfs :: _ => if end_ mkfs =? 0 then begin mkfs else end_ mkfs
           end in
  align_down (s + 2 * 1024 * 1024 * 1024) 4096.

(** ** A concrete environment, to run the code on examples *)

Module Demo.

(** A search path on which every program is found in [/usr/bin]. *)
Definition which_all (name : string) : option string :=
  if Py.startswith "/" name then Some name else Some ("/usr/bin/" ++ name).

(** The same search path without [partprobe]. *)
Definition which_no_partprobe (name : string) : option string :=
  if (name =? "partprobe")%string then None else which_all name.

(** A machine that remembers the programs it ran. Every program succeeds
    on it, except [mount], which exits with status 32. *)
Definition World : Type := list (list string).

Definition subprocess_run (w : World) (argv : list string) : World * Z :=
  ((w ++ [argv])%list,
   if (hd "" argv =? "/usr/bin/mount")%string then 32 else 0).

Definition start : state World := {| world := []; log := [] |}.

(** A script with a label line, a line of blanks, a comment line and two
    partition lines, and what the parser makes of it. *)
Definition script : string :=
  "mklabel msdos
   
# system partitions
mkpart primary fat32 1MiB 257MiB # label=PIBOOT mount=boot
mkpart primary ext4 257MiB 100% # label=PIROOT reserved=1 mount=home
".

Definition parted : list (list string) :=
  [ ["mklabel"; "msdos"]; []; [];
    ["mkpart"; "primary"; "fat32"; "1MiB"; "257MiB"];
    ["mkpart"; "primary"; "ext4"; "257MiB"; "100%"] ].

Definition boot : _Mkfs :=
  {| npart := 1; fs := "fat32"; label := "PIBOOT"; reserved := "";
     mount := "boot"; begin := 1048576; end_ := 269484032 |}.

Definition home : _Mkfs :=
  {| npart := 2; fs := "ext4"; label := "PIROOT"; reserved := "1";
     mount := "home"; begin := 269484032; end_ := 0 |}.

Definition filesystems : list _Mkfs := [boot; home].

(** A partition line whose keywords stand after its fields. *)
Definition script_keywords_last : string :=
  "unit MiB ext4 1MiB 100% mkpart primary".

(** A script with a filesystem kind that mkfs does not know. *)
Definition script_btrfs : string :=
  "mkpart primary ext4 1MiB 257MiB # label=a
mkpart primary btrfs 257MiB 100% # label=b".

(** A partition whose end is the byte count zero, and one whose end is
    counted from the end of the device. *)
Definition script_end_zero : string := "mkpart primary ext4 1MiB 0".

Definition script_end_negative : string := "mkpart primary ext4 1MiB -1MiB".

(** A script without comments. *)
Definition script_plain : string :=
  "mklabel msdos
mkpart primary ext4 1MiB 100%".

(** A script whose partition line is too short. *)
Definition script_short : string :=
  "mklabel msdos
mkpart primary ext4".

End Demo.

(** ** disk.py *)

Section Disk.

(** [dask.utils.parse_bytes]; [None] stands for its [ValueError]. *)
Variable parse_bytes : string -> option Z.

(** [shutil.which]: the path of the executable of a program name, [None]
    when the search path has none. *)
Variable which : string -> option string.

(** The machine, and [subprocess.run] on it: the machine after the program
    has run, and the exit status of the program. *)
Variable World : Type.
Variable subprocess_run : World -> list string -> World * Z.

(** [sys.argv[0]]. *)
Variable argv0 : string.

Definition M (A : Type) : Type := state World -> result A * state World.

Definition ret {A : Type} (a : A) : M A := fun st => (Ok a, st).

Definition bind {A B : Type} (m : M A) (k : A -> M B) : M B :=
  fun st =>
    match m st with
    | (Ok a, st') => k a st'
    | (Raise e, st') => (Raise e, st')
    end.

Definition raise {A : Type} (e : exn) : M A := fun st => (Raise e, st).

Definition lift {A : Type} (r : result A) : M A := fun st => (r, st).

(** [try: body except CalledProcessError: handler]. *)
Definition except_CalledProcessError {A : Type} (body handler : M A) : M A :=
  fun st =>
    match body st with
    | (Raise CalledProcessError, st') => handler st'
    | r => r
    end.

Definition print (line : string) : M unit :=
  fun st =>
    (Ok tt, {| world := world st; log := (log st ++ [Print line])%list |}).

(** [subprocess.run(argv, check=True)]. *)
Definition run_checked (argv : list string) : M unit :=
  fun st =>
    let (w, status) := subprocess_run (world st) argv in
    let st' := {| world := w; log := (log st ++ [Run argv])%list |} in
    if status =? 0 then (Ok tt, st') else (Raise CalledProcessError, st').

Notation "x <- m ;; k" := (bind m (fun x => k))
  (at level 61, m at next level, right associativity).
Notation "m ;;; k" := (bind m (fun _ => k))
  (at level 61, right associativity).
Notation "x <-- r ;; k" := (rbind r (fun x => k))
  (at level 61, r at next level, right associativity).

(** *** _parse_script *)

(** [(line.split("#", 1) + [""])[:2]]. *)
Definition left_right (line : string) : string * string :=
  match firstn 2 (Py.split1 "#" line ++ [""]) with
  | [l; r] => (l, r)
  | _ => (line, "")
  end.

Definition is_mkpart (left : list string) : bool :=
  Py.contains "mkpart" left
  && (Py.contains "primary" left || Py.contains "logical" left).

Definition parse_size (token : string) : result Z :=
  match parse_bytes token with
  | Some n => Ok n
  | None => Raise ValueError
  end.

(** The variables of the loop of [_parse_script]. *)
Record parse_state : Type := {
  parted : list (list string);
  filesystems : list _Mkfs;
  next_npart : Z
}.

(** The body of the loop. *)
Definition parse_line (st : parse_state) (line : string)
  : result parse_state :=
  let (left0, right) := left_right line in
  let left := Py.split_ws left0 in
  if is_mkpart left then
    if (5 <=? List.length left)%nat then
      let params := Py.findall_key_value right in
      b <-- parse_size (nth 3 left "") ;;
      e <-- (if (nth 4 left "" =? "100%")%string then Ok 0
             else parse_size (nth 4 left "")) ;;
      Ok {| parted := parted st ++ [left];
            filesystems := filesystems st ++
              [ {| npart := next_npart st;
                   fs := nth 2 left "";
                   label := Py.dict_get "label" "" params;
                   reserved := Py.dict_get "reserved" "" params;
                   mount := Py.dict_get "mount" "" params;
                   begin := b;
                   end_ := e |} ];
            next_npart := next_npart st + 1 |}
    else Raise AssertionError
  else
    Ok {| parted := parted st ++ [left];
          filesystems := filesystems st;
          next_npart := next_npart st |}.

Fixpoint parse_lines (st : parse_state) (lines : list string)
  : result parse_state :=
  match lines with
  | [] => Ok st
  | line :: rest => st' <-- parse_line st line ;; parse_lines st' rest
  end.

(** [filter(None, script.split("\n"))]. *)
Definition script_lines (script : string) : list string :=
  filter Py.truthy (Py.split "010" script).

Definition _parse_script (script : string)
  : result (list (list string) * list _Mkfs) :=
  st <-- parse_lines {| parted := []; filesystems := []; next_npart := 1 |}
                     (script_lines script) ;;
  Ok (parted st, filesystems st).

(** The command words and the comment of a line. *)
Definition tokens (line : string) : list string :=
  Py.split_ws (fst (left_right line)).

Definition comment (line : string) : string := snd (left_right line).

(** [spec_of n line mkfs]: [mkfs] is what the parser builds from the
    partition line [line] when it is the [n]-th one. *)
Definition spec_of (n : Z) (line : string) (mkfs : _Mkfs) : Prop :=
  let left := tokens line in
  let params := Py.findall_key_value (comment line) in
  (5 <= List.length left)%nat
  /\ npart mkfs = n
  /\ fs mkfs = nth 2 left ""
  /\ label mkfs = Py.dict_get "label" "" params
  /\ reserved mkfs = Py.dict_get "reserved" "" params
  /\ mount mkfs = Py.dict_get "mount" "" params
  /\ parse_bytes (nth 3 left "") = Some (begin mkfs)
  /\ (if (nth 4 left "" =? "100%")%string then end_ mkfs = 0
      else parse_bytes (nth 4 left "") = Some (end_ mkfs)).

(** The elements of a list with their ranks, counted from [n]. *)
Fixpoint number_from {A : Type} (n : Z) (l : list A) : list (Z * A) :=
  match l with
  | [] => []
  | x :: t => (n, x) :: number_from (n + 1) t
  end.

(** A line is blank when it has only whitespace. *)
Fixpoint blank (line : string) : bool :=
  match line with
  | EmptyString => true
  | String c s => Py.isspace c && blank s
  end.

(** *** _make_partition *)

Definition _make_partition (path : string) (npart : Z) : string :=
  let device := Py.basename path in
  if Py.startswith "mmcblk" device || Py.startswith "loop" device
  then path ++ "p" ++ Py.str_of_int npart
  else path ++ Py.str_of_int npart.

(** *** _run_commands *)

(** One turn of the loop. The command line is joined and printed before
    the [try] block; a [None] among the words makes the join raise. *)
Definition run_command (cmd : list (option string)) : M unit :=
  match all_str cmd with
  | None => raise TypeError
  | Some words =>
      print ("CMD [ " ++ argv0 ++ " ] ==> " ++ Py.join " " words) ;;;
      except_CalledProcessError
        (match words with
         | [] => raise IndexError
         | program :: args =>
             match which program with
             | None => raise FileNotFoundError
             | Some executable => run_checked (executable :: args)
             end
         end)
        (raise (SystemExit 1))
  end.

Fixpoint _run_commands (cmds : list (list (option string))) : M unit :=
  match cmds with
  | [] => ret tt
  | cmd :: rest => run_command cmd ;;; _run_commands rest
  end.

(** A command whose program cannot be resolved: the builder found no
    executable for it and left [None] as its first word, or its first word
    is a name that the search path does not have. *)
Definition unresolved (cmd : list (option string)) : bool :=
  match cmd with
  | None :: _ => true
  | Some program :: _ =>
      match which program with
      | None => true
      | Some _ => false
      end
  | [] => false
  end.

(** The two commands that end the [format] and [mkfs] sequences. *)
Definition reread_cmds (device_path : string) : list (list (option string)) :=
  [ [which "partprobe"; Some device_path];
    [which "partx"; Some "-vu"; Some device_path] ].

(** *** _format_disk *)

Definition format_cmds (device_path : string) (parted : list (list string))
  : list (list (option string)) :=
  (map (fun cmd =>
         [which "parted"; Some device_path; Some "-a"; Some "optimal";
          Some "-s"] ++ map Some cmd)%list parted
  ++ reread_cmds device_path)%list.

Definition _format_disk (device_path stdin : string) : M unit :=
  p <- lift (_parse_script stdin) ;;
  _run_commands (format_cmds device_path (fst p)).

(** *** _mkfs_disk *)

(** The command of one partition. *)
Definition mkfs_cmd (device_path : string) (mkfs : _Mkfs)
  : result (list (option string)) :=
  cmd <-- (if (fs mkfs =? "fat32")%string then
             Ok ([which "mkfs.vfat"]
                 ++ (if Py.truthy (label mkfs)
                     then [Some "-n"; Some (label mkfs)] else []))%list
           else if (fs mkfs =? "ext4")%string then
             Ok ([which "mkfs.ext4"]
                 ++ (if Py.truthy (label mkfs)
                     then [Some "-L"; Some (label mkfs)] else [])
                 ++ (if Py.truthy (reserved mkfs)
                     then [Some "-m"; Some (reserved mkfs)] else []))%list
           else Raise RuntimeError) ;;
  Ok (cmd ++ [Some (_make_partition device_path (npart mkfs))])%list.

(** The loop over the partitions; [cmds] is the list built so far. *)
Fixpoint mkfs_loop (device_path : string) (cmds : list (list (option string)))
  (filesystems : list _Mkfs) : result (list (list (option string))) :=
  match filesystems with
  | [] => Ok cmds
  | mkfs :: rest =>
      cmd <-- mkfs_cmd device_path mkfs ;;
      mkfs_loop device_path (cmds ++ [cmd])%list rest
  end.

Definition mkfs_cmds (device_path : string) (filesystems : list _Mkfs)
  : result (list (list (option string))) :=
  cmds <-- mkfs_loop device_path [] filesystems ;;
  Ok (cmds ++ reread_cmds device_path)%list.

Definition _mkfs_disk (device_path stdin : string) : M unit :=
  p <- lift (_parse_script stdin) ;;
  cmds <- lift (mkfs_cmds device_path (snd p)) ;;
  _run_commands cmds.

(** *** _mount_disk *)

(** The sort key: [len(list(filter(None, mkfs.mount.split("/"))))]. *)
Definition depth (mkfs : _Mkfs) : nat :=
  List.length (filter Py.truthy (Py.split "/" (mount mkfs))).

(** The order in which the partitions are visited: sorted by depth, and
    reversed for unmounting. *)
Definition mount_order (filesystems : list _Mkfs) (mount : bool)
  : list _Mkfs :=
  let filesystems := Py.sorted depth filesystems in
  if negb mount then rev filesystems else filesystems.

Definition mount_cmd (device_path prefix_path : string) (mount_flag : bool)
  (mkfs : _Mkfs) : list (list (option string)) :=
  if Py.truthy (mount mkfs) then
    let part_path := _make_partition device_path (npart mkfs) in
    if mount_flag then
      let mount_path := prefix_path ++ "/" ++ mount mkfs in
      [ [which "mkdir"; Some "-p"; Some mount_path];
        [which "mount"; Some part_path; Some mount_path] ]
    else [ [which "umount"; Some part_path] ]
  else [].

Definition mount_cmds (device_path prefix_path : string) (mount : bool)
  (filesystems : list _Mkfs) : list (list (option string)) :=
  flat_map (mount_cmd device_path prefix_path mount)
           (mount_order filesystems mount).

Definition _mount_disk (device_path prefix_path : string) (mount : bool)
  (stdin : string) : M unit :=
  p <- lift (_parse_script stdin) ;;
  _run_commands (mount_cmds device_path prefix_path mount (snd p)).

(** *** _print_size *)

(** The loop of [_print_size], from the value [size] has so far. *)
Definition size_loop (size : Z) (filesystems : list _Mkfs) : Z :=
  fold_left (fun size mkfs => if end_ mkfs >? 0 then end_ mkfs else begin mkfs)
            filesystems size.

Definition minimum_size (filesystems : list _Mkfs) : Z :=
  let size := size_loop 0 filesystems in
  let size := size + 2048 * 1024 * 1024 in
  size - size mod 4096.

Definition _print_size (stdin : string) : M unit :=
  p <- lift (_parse_script stdin) ;;
  print (Py.str_of_int (minimum_size (snd p))).

(** *** main *)

(** [args] is [sys.argv[1:]]. *)
Definition main (args : list string) (stdin : string) : M unit :=
  match args with
  | [] =>
      raise (SystemExitUsage
        ("Usage: " ++ argv0 ++ " <format|mkfs|mount|umount|print-size> ..."))
  | mode :: args =>
      if (mode =? "format")%string then
        match args with
        | [device_path] => _format_disk device_path stdin
        | _ => raise (SystemExitUsage
                 ("Usage: cat disk.conf | " ++ argv0 ++ " format /dev/path"))
        end
      else if (mode =? "mkfs")%string then
        match args with
        | [device_path] => _mkfs_disk device_path stdin
        | _ => raise (SystemExitUsage
                 ("Usage: cat disk.conf | " ++ argv0 ++ " mkfs /dev/path"))
        end
      else if (mode =? "mount")%string then
        match args with
        | [device_path; prefix_path] =>
            _mount_disk device_path prefix_path true stdin
        | _ => raise (SystemExitUsage
                 ("Usage: cat disk.conf | " ++ argv0
                  ++ " mount /dev/path /prefix/path"))
        end
      else if (mode =? "umount")%string then
        match args with
        | [device_path] => _mount_disk device_path "/dev/null" false stdin
        | _ => raise (SystemExitUsage
                 ("Usage: cat disk.conf | " ++ argv0 ++ " umount /dev/path"))
        end
      else if (mode =? "print-size")%string then
        match args with
        | [] => _print_size stdin
        | _ => raise (SystemExitUsage
                 ("Usage: cat disk.conf | " ++ argv0 ++ " print-size"))
        end
      else
        raise (SystemExitUsage
          ("Usage: " ++ argv0 ++ " <format|mount|umount> ..."))
  end.

(** *** Notions used to state the properties *)

(** A line that the loop of [_parse_script] accepts: a partition line must
    have five command tokens, a begin token that [parse_bytes] reads, and an
    end token that is [100%] or that [parse_bytes] reads. *)
Definition line_ok (line : string) : bool :=
  let left := tokens line in
  if is_mkpart left then
    (5 <=? List.length left)%nat
    && is_some (parse_bytes (nth 3 left ""))
    && ((nth 4 left "" =? "100%")%string
        || is_some (parse_bytes (nth 4 left "")))
  else true.

(** The argument vector that [_run_commands] executes for a command, when
    it gets as far as executing it. *)
Definition argv_of (cmd : list (option string)) : option (list string) :=
  match all_str cmd with
  | Some (program :: args) =>
      match which program with
      | Some executable => Some (executable :: args)
      | None => None
      end
  | _ => None
  end.

(** A piece of log in which every execution comes right after a printed
    line. *)
Fixpoint echoed (l : list event) : bool :=
  match l with
  | [] => true
  | Print _ :: t =>
      match t with
      | Run _ :: t' => echoed t'
      | _ => echoed t
      end
  | Run _ :: _ => false
  end.

(** The filesystem kinds that [_mkfs_disk] knows. *)
Definition supported (mkfs : _Mkfs) : bool :=
  (fs mkfs =? "fat32")%string || (fs mkfs =? "ext4")%string.

(** The program that creates a filesystem of a supported kind. *)
Definition mkfs_program (mkfs : _Mkfs) : string :=
  if (fs mkfs =? "fat32")%string then "mkfs.vfat" else "mkfs.ext4".

(** The arguments that [main] takes for a mode: a mode that it knows, with
    the number of arguments of that mode. *)
Definition valid_invocation (args : list string) : bool :=
  match args with
  | [mode] => (mode =? "print-size")%string
  | [mode; _] =>
      (mode =? "format")%string || (mode =? "mkfs")%string
      || (mode =? "umount")%string
  | [mode; _; _] => (mode =? "mount")%string
  | _ => false
  end.

(** The partitions that [_mount_disk] does not skip. *)
Definition has_mount (mkfs : _Mkfs) : bool := Py.truthy (mount mkfs).

(** ** Properties of the parser *)

Lemma left_right_eq (line : string) :
  left_right line = (fst (left_right line), snd (left_right line)).
Proof. destruct (left_right line); reflexivity. Qed.

(** What one turn of the loop does when it does not raise. *)
Lemma parse_line_ok (st st' : parse_state) (line : string) :
  parse_line st line = Ok st' ->
  parted st' = (parted st ++ [tokens line])%list
  /\ ((is_mkpart (tokens line) = false
       /\ filesystems st' = filesystems st
       /\ next_npart st' = next_npart st)
      \/ (is_mkpart (tokens line) = true
          /\ exists mkfs,
               spec_of (next_npart st) line mkfs
               /\ filesystems st' = (filesystems st ++ [mkfs])%list
               /\ next_npart st' = next_npart st + 1)).
Proof.
  unfold parse_line, spec_of, tokens, comment, parse_size.
  destruct (left_right line) as [left0 right]; cbn [fst snd].
  destruct (is_mkpart (Py.split_ws left0)) eqn:Hq.
  - destruct (5 <=? List.length (Py.split_ws left0))%nat eqn:Hlen;
      [ | discriminate ].
    apply Nat.leb_le in Hlen.
    destruct (parse_bytes (nth 3 (Py.split_ws left0) "")) as [b | ] eqn:Hb;
      [ | discriminate ].
    cbn [rbind].
    destruct (nth 4 (Py.split_ws left0) "" =? "100%")%string eqn:Hend.
    + cbn [rbind]. intros [= <-]; cbn [parted filesystems next_npart].
      split; [ reflexivity | right ].
      split; [ reflexivity | ].
      eexists; split; [ | split; reflexivity ].
      cbv zeta; cbn [npart fs label reserved mount begin end_].
      repeat split; auto.
    + destruct (parse_bytes (nth 4 (Py.split_ws left0) "")) as [e | ] eqn:He;
        [ | discriminate ].
      cbn [rbind]. intros [= <-]; cbn [parted filesystems next_npart].
      split; [ reflexivity | right ].
      split; [ reflexivity | ].
      eexists; split; [ | split; reflexivity ].
      cbv zeta; cbn [npart fs label reserved mount begin end_].
      repeat split; auto.
  - intros [= <-]; cbn [parted filesystems next_npart]. split; [ reflexivity | left; auto ].
Qed.

(** The invariant of the loop: the raw list grows by the tokens of every
    line, the partition list by one entry per partition line, numbered in
    sequence. *)
Lemma parse_lines_inv (lines : list string) :
  forall st st',
    parse_lines st lines = Ok st' ->
    parted st' = (parted st ++ map tokens lines)%list
    /\ exists new,
         filesystems st' = (filesystems st ++ new)%list
         /\ Forall2 (fun nl mkfs => spec_of (fst nl) (snd nl) mkfs)
              (number_from (next_npart st)
                 (filter (fun l => is_mkpart (tokens l)) lines))
              new.
Proof.
  induction lines as [ | line rest IH]; intros st st' H; cbn in H.
  - injection H as <-. split; [ now rewrite app_nil_r | ].
    exists []. split; [ now rewrite app_nil_r | constructor ].
  - destruct (parse_line st line) as [st1 | ] eqn:H1; [ | discriminate ].
    cbn [rbind] in H.
    apply parse_line_ok in H1 as [Hp Hf].
    apply IH in H as [Hp' (new & Hf' & Hall)].
    split.
    + rewrite Hp', Hp, <- app_assoc. reflexivity.
    + cbn [filter].
      destruct Hf as [(Hq & Hfs & Hn) | (Hq & mkfs & Hspec & Hfs & Hn)];
        rewrite Hq.
      * exists new. rewrite Hf', Hfs. split; [ reflexivity | ].
        now rewrite <- Hn.
      * exists (mkfs :: new). rewrite Hf', Hfs, <- app_assoc.
        split; [ reflexivity | ].
        cbn [number_from]. constructor; [ exact Hspec | ].
        now rewrite <- Hn.
Qed.

(** The result of [_parse_script], when it does not raise. *)
Lemma parse_script_inv (script : string) parted0 filesystems0 :
  _parse_script script = Ok (parted0, filesystems0) ->
  parted0 = map tokens (script_lines script)
  /\ Forall2 (fun nl mkfs => spec_of (fst nl) (snd nl) mkfs)
       (number_from 1
          (filter (fun l => is_mkpart (tokens l)) (script_lines script)))
       filesystems0.
Proof.
  unfold _parse_script.
  destruct (parse_lines _ _) as [st | ] eqn:H; [ | discriminate ].
  cbn [rbind]. intros [= <- <-].
  apply parse_lines_inv in H as [Hp (new & Hf & Hall)].
  cbn in Hp, Hf, Hall. subst new. auto.
Qed.

Lemma filter_map_tokens (lines : list string) :
  filter is_mkpart (map tokens lines)
  = map tokens (filter (fun l => is_mkpart (tokens l)) lines).
Proof.
  induction lines as [ | l t IH]; cbn; [ reflexivity | ].
  destruct (is_mkpart (tokens l)); cbn; now rewrite IH.
Qed.

(** A property of the numbered partition lines and their specs, read on
    the tokens alone. *)
Lemma Forall2_numbered {A B C : Type} (f : A -> C) (R : Z -> A -> B -> Prop)
  (P : C -> B -> Prop) (l : list A) :
  (forall n a b, R n a b -> P (f a) b) ->
  forall n l',
    Forall2 (fun na b => R (fst na) (snd na) b) (number_from n l) l' ->
    Forall2 P (map f l) l'.
Proof.
  intros HRP. induction l as [ | a t IH]; intros n l' H; cbn in *.
  - inversion H; constructor.
  - inversion H as [ | ? b ? t' Hab Ht]; subst. cbn in Hab.
    constructor; eauto.
Qed.

Lemma Forall2_numbered_ranks {A B : Type} (R : Z -> A -> B -> Prop)
  (rank : B -> Z) (l : list A) :
  (forall n a b, R n a b -> rank b = n) ->
  forall n l',
    Forall2 (fun na b => R (fst na) (snd na) b) (number_from n l) l' ->
    map rank l' = map (fun k => n + Z.of_nat k) (seq 0 (List.length l')).
Proof.
  intros HR. induction l as [ | a t IH]; intros n l' H; cbn in *.
  - inversion H; reflexivity.
  - inversion H as [ | ? b ? t' Hab Ht]; subst. cbn in Hab.
    cbn. f_equal.
    + rewrite (HR _ _ _ Hab). lia.
    + rewrite (IH _ _ Ht), <- seq_shift, map_map.
      apply map_ext. intros k. lia.
Qed.

Lemma is_mkpart_nil : is_mkpart [] = false.
Proof. reflexivity. Qed.

Lemma contains_In (x : string) (l : list string) :
  Py.contains x l = true <-> In x l.
Proof.
  unfold Py.contains. rewrite existsb_exists. split.
  - intros (y & Hy & E). apply String.eqb_eq in E. now subst.
  - intros H. exists x. split; [ exact H | apply String.eqb_refl ].
Qed.

Lemma tokens_empty : tokens "" = [].
Proof. reflexivity. Qed.

Lemma truthy_false (s : string) : Py.truthy s = false -> s = "".
Proof.
  unfold Py.truthy. intros H. apply negb_false_iff in H.
  now apply String.eqb_eq in H.
Qed.

(** Empty lines are no partition lines, so it makes no difference to the
    partition lines whether they are dropped first. *)
Lemma filter_mkpart_truthy (lines : list string) :
  filter (fun l => is_mkpart (tokens l)) (filter Py.truthy lines)
  = filter (fun l => is_mkpart (tokens l)) lines.
Proof.
  induction lines as [ | l t IH]; cbn [filter]; [ reflexivity | ].
  destruct (Py.truthy l) eqn:E; cbn [filter]; [ now rewrite IH | ].
  apply truthy_false in E. subst l.
  rewrite tokens_empty, is_mkpart_nil. exact IH.
Qed.

Lemma split1_blank (line : string) :
  blank line = true -> Py.split1 "#" line = [line].
Proof.
  induction line as [ | c s IH]; cbn; [ reflexivity | ].
  intros H. apply andb_prop in H as [Hc Hs].
  destruct (Ascii.eqb c "#") eqn:E.
  - apply Ascii.eqb_eq in E. subst c. discriminate.
  - now rewrite (IH Hs).
Qed.

Lemma split_ws_blank (line : string) :
  blank line = true -> Py.split_ws_acc "" line = [].
Proof.
  induction line as [ | c s IH]; cbn; [ reflexivity | ].
  intros H. apply andb_prop in H as [Hc Hs].
  rewrite Hc. cbn. auto.
Qed.

(** A line of whitespace only has no tokens. *)
Lemma tokens_blank (line : string) : blank line = true -> tokens line = [].
Proof.
  intros H. unfold tokens, left_right.
  rewrite (split1_blank _ H). cbn. now apply split_ws_blank.
Qed.

(** C7: when the script parses, there are as many partition specs as
    lines whose command tokens contain [mkpart] together with [primary] or
    [logical]; these lines, in script order, and the specs correspond one
    to one; and the [npart] values are 1, 2, ..., N in that order, whatever
    other lines stand in between. *)
Theorem parse_script_one_spec_per_mkpart_line
  (script : string) parted0 filesystems0 :
  _parse_script script = Ok (parted0, filesystems0) ->
  List.length filesystems0
  = List.length (filter is_mkpart (map tokens (Py.split "010" script)))
  /\ Forall2 (fun nl mkfs => spec_of (fst nl) (snd nl) mkfs)
       (number_from 1
          (filter (fun l => is_mkpart (tokens l)) (Py.split "010" script)))
       filesystems0
  /\ map npart filesystems0
     = map Z.of_nat (seq 1 (List.length filesystems0)).
Proof.
  intros H. apply parse_script_inv in H as [_ Hall].
  unfold script_lines in Hall. rewrite filter_mkpart_truthy in Hall.
  split; [ | split ].
  - rewrite filter_map_tokens, length_map.
    apply (Forall2_numbered tokens
             (fun n l mkfs => spec_of n l mkfs) (fun _ _ => True)) in Hall;
      [ | auto ].
    apply Forall2_length in Hall. now rewrite length_map in Hall.
  - exact Hall.
  - rewrite (Forall2_numbered_ranks (fun n l mkfs => spec_of n l mkfs)
               npart _ (fun n a b H => proj1 (proj2 H)) _ _ Hall).
    rewrite <- seq_shift, map_map. apply map_ext. intros k. lia.
Qed.

(** The partition lines of the raw list and the specs, side by side. *)
Lemma parse_script_mkpart_lines (P : list string -> _Mkfs -> Prop)
  (script : string) parted0 filesystems0 :
  (forall n line mkfs, spec_of n line mkfs -> P (tokens line) mkfs) ->
  _parse_script script = Ok (parted0, filesystems0) ->
  Forall2 P (filter is_mkpart parted0) filesystems0.
Proof.
  intros HP H. apply parse_script_inv in H as [-> Hall].
  rewrite filter_map_tokens.
  exact (Forall2_numbered tokens (fun n l mkfs => spec_of n l mkfs) P _
           HP _ _ Hall).
Qed.

(** C1, as the code has it: for every parsed partition spec, [end_] is 0
    when the end token of its line (the fifth command token) is the
    literal [100%], and any other end token yields the byte count that
    [parse_bytes] reads from it. Hence [end_] is 0 exactly when the token
    is [100%] or is a byte count of zero. *)
Theorem end_offset_of_end_token (script : string) parted0 filesystems0 :
  _parse_script script = Ok (parted0, filesystems0) ->
  Forall2
    (fun left mkfs =>
       (nth 4 left "" = "100%" -> end_ mkfs = 0)
       /\ (nth 4 left "" <> "100%" ->
           parse_bytes (nth 4 left "") = Some (end_ mkfs))
       /\ (end_ mkfs = 0 <->
           nth 4 left "" = "100%" \/ parse_bytes (nth 4 left "") = Some 0))
    (filter is_mkpart parted0) filesystems0.
Proof.
  apply parse_script_mkpart_lines.
  intros n line mkfs (_ & _ & _ & _ & _ & _ & _ & Hend).
  destruct (nth 4 (tokens line) "" =? "100%")%string eqn:E.
  - apply String.eqb_eq in E. repeat split; auto; congruence.
  - apply String.eqb_neq in E. repeat split; try congruence.
    + intros H0. right. now rewrite Hend, H0.
    + intros [H | H]; congruence.
Qed.

(** C8, as the code has it: the raw command-line list is the list of the
    token lists of the lines that are not empty, in script order. So an
    empty line is dropped, and every other line has its token list
    appended, whatever the line is; a line of whitespace only is not
    dropped: it has no tokens, adds the empty token list to the raw list,
    and yields no partition spec. *)
Theorem parse_script_raw_lines (script : string) parted0 filesystems0 :
  _parse_script script = Ok (parted0, filesystems0) ->
  parted0 = map tokens (filter Py.truthy (Py.split "010" script))
  /\ List.length filesystems0 = List.length (filter is_mkpart parted0)
  /\ (forall line,
        blank line = true ->
        tokens line = [] /\ is_mkpart (tokens line) = false).
Proof.
  intros H. split; [ | split ].
  - now apply parse_script_inv in H as [-> _].
  - apply (parse_script_mkpart_lines (fun _ _ => True)) in H; [ | auto ].
    apply Forall2_length in H. now rewrite H.
  - intros line Hb. rewrite (tokens_blank _ Hb). auto.
Qed.

(** C10: a line is a partition line as soon as its command tokens contain
    [mkpart] and one of [primary] and [logical], wherever they stand; the
    filesystem kind, the begin offset and the end offset of its spec come
    from the third, fourth and fifth command tokens. *)
Theorem mkpart_fields_are_positional (script : string) parted0 filesystems0 :
  _parse_script script = Ok (parted0, filesystems0) ->
  (forall left,
     is_mkpart left = true <->
     In "mkpart" left /\ (In "primary" left \/ In "logical" left))
  /\ Forall2
       (fun left mkfs =>
          fs mkfs = nth 2 left ""
          /\ parse_bytes (nth 3 left "") = Some (begin mkfs)
          /\ (if (nth 4 left "" =? "100%")%string then end_ mkfs = 0
              else parse_bytes (nth 4 left "") = Some (end_ mkfs)))
       (filter is_mkpart parted0) filesystems0.
Proof.
  intros H. split.
  - intros left. unfold is_mkpart.
    rewrite andb_true_iff, orb_true_iff, !contains_In. reflexivity.
  - revert H. apply parse_script_mkpart_lines.
    intros n line mkfs (_ & _ & Hfs & _ & _ & _ & Hb & He). auto.
Qed.

(** ** Properties of the mount order *)

Section SortedFacts.
Context {A : Type} (key : A -> nat).

Lemma insert_perm (x : A) (l : list A) :
  Permutation (x :: l) (Py.insert key x l).
Proof.
  induction l as [ | y t IH]; cbn; [ reflexivity | ].
  destruct (key x <=? key y)%nat; [ reflexivity | ].
  rewrite perm_swap. now constructor.
Qed.

Lemma sorted_perm (l : list A) : Permutation l (Py.sorted key l).
Proof.
  induction l as [ | x t IH]; cbn; [ constructor | ].
  rewrite <- insert_perm. now constructor.
Qed.

Lemma insert_ascending (x : A) (l : list A) :
  StronglySorted (fun a b => key a <= key b)%nat l ->
  StronglySorted (fun a b => key a <= key b)%nat (Py.insert key x l).
Proof.
  induction 1 as [ | y t Ht IH Hy]; cbn.
  - repeat constructor.
  - destruct (key x <=? key y)%nat eqn:E.
    + apply Nat.leb_le in E. constructor.
      * now constructor.
      * constructor; [ exact E | ].
        eapply Forall_impl; [ | exact Hy ].
        cbv beta. intros; lia.
    + apply Nat.leb_gt in E. constructor; [ exact IH | ].
      rewrite <- insert_perm. constructor; [ lia | exact Hy ].
Qed.

Lemma sorted_ascending (l : list A) :
  StronglySorted (fun a b => key a <= key b)%nat (Py.sorted key l).
Proof.
  induction l as [ | x t IH]; cbn; [ constructor | ].
  now apply insert_ascending.
Qed.

(** An element is inserted in front of the elements of its own key: it
    only passes elements of a smaller key. *)
Lemma insert_same_key (d : nat) (x : A) (l : list A) :
  filter (fun y => key y =? d)%nat (Py.insert key x l)
  = filter (fun y => key y =? d)%nat (x :: l).
Proof.
  induction l as [ | y t IH]; cbn [Py.insert]; [ reflexivity | ].
  destruct (key x <=? key y)%nat eqn:E; [ reflexivity | ].
  apply Nat.leb_gt in E.
  cbn [filter] in *. rewrite IH.
  destruct (key y =? d)%nat eqn:Ey, (key x =? d)%nat eqn:Ex;
    try reflexivity.
  apply Nat.eqb_eq in Ey, Ex. lia.
Qed.

(** The sort is stable: the elements of one key keep their order. *)
Lemma sorted_stable (d : nat) (l : list A) :
  filter (fun y => key y =? d)%nat (Py.sorted key l)
  = filter (fun y => key y =? d)%nat l.
Proof.
  induction l as [ | x t IH]; cbn [Py.sorted]; [ reflexivity | ].
  rewrite insert_same_key. cbn [filter]. now rewrite IH.
Qed.
End SortedFacts.

(** Mounting goes from the shallow mount paths to the deep ones, and
    unmounting the other way round; both visit every partition once. *)
Lemma mount_order_mount (l : list _Mkfs) :
  Permutation l (mount_order l true)
  /\ StronglySorted (fun a b => (depth a <= depth b)%nat) (mount_order l true).
Proof.
  unfold mount_order; cbn. split.
  - apply sorted_perm.
  - apply sorted_ascending.
Qed.

Lemma mount_order_umount (l : list _Mkfs) :
  mount_order l false = rev (mount_order l true).
Proof. reflexivity. Qed.

(** C3, as the code has it: in the order used for mounting, the
    partitions whose mount paths have the same depth stand in script
    order; the order used for unmounting is the reverse of it, so that
    there they stand in reverse script order. *)
Theorem mount_order_ties (l : list _Mkfs) (d : nat) :
  filter (fun m => depth m =? d)%nat (mount_order l true)
  = filter (fun m => depth m =? d)%nat l
  /\ filter (fun m => depth m =? d)%nat (mount_order l false)
     = rev (filter (fun m => depth m =? d)%nat l).
Proof.
  unfold mount_order; cbn [negb]. split.
  - apply sorted_stable.
  - rewrite filter_rev. f_equal. apply sorted_stable.
Qed.

(** ** Properties of the size computation *)

Lemma size_loop_last (l : list _Mkfs) (mkfs : _Mkfs) (size : Z) :
  size_loop size (l ++ [mkfs])
  = if end_ mkfs >? 0 then end_ mkfs else begin mkfs.
Proof. unfold size_loop. now rewrite fold_left_app. Qed.

(** C4, as the code has it: the minimum size is
    [align_down (s + 2 GiB) 4096], where [s] is 0 for the empty list and
    otherwise [end_] of the last spec if that is positive, else [begin] of
    the last spec. A last partition that ends at 4 GiB gives
    [align_down (4 GiB + 2 GiB) 4096]. *)
Theorem minimum_size_of_last :
  minimum_size [] = align_down (0 + 2 * 1024 * 1024 * 1024) 4096
  /\ (forall l mkfs,
        minimum_size (l ++ [mkfs])
        = align_down
            ((if end_ mkfs >? 0 then end_ mkfs else begin mkfs)
             + 2 * 1024 * 1024 * 1024) 4096)
  /\ (forall l n kind lbl res mnt b,
        minimum_size
          (l ++ [Build_Mkfs n kind lbl res mnt b (4 * 1024 * 1024 * 1024)])
        = align_down (4 * 1024 * 1024 * 1024 + 2 * 1024 * 1024 * 1024) 4096).
Proof.
  unfold minimum_size, align_down. split; [ reflexivity | split ].
  - intros l mkfs. now rewrite size_loop_last.
  - intros. now rewrite size_loop_last.
Qed.

(** ** Properties of the command runner *)

Lemma executed_app (l1 l2 : list event) :
  executed (l1 ++ l2) = (executed l1 ++ executed l2)%list.
Proof.
  induction l1 as [ | [line | argv] t IH]; cbn; [ reflexivity | exact IH | ].
  now rewrite IH.
Qed.

Lemma run_commands_app (pre post : list (list (option string))) :
  forall st,
    _run_commands (pre ++ post) st
    = match _run_commands pre st with
      | (Ok _, st1) => _run_commands post st1
      | (Raise e, st1) => (Raise e, st1)
      end.
Proof.
  induction pre as [ | cmd t IH]; intros st; cbn [app _run_commands].
  - reflexivity.
  - unfold bind. destruct (run_command cmd st) as [[[] | e] st1];
      [ apply IH | reflexivity ].
Qed.

(** A command that returns has executed one program. *)
Lemma run_command_ok (cmd : list (option string)) (st st1 : state World) u :
  run_command cmd st = (Ok u, st1) ->
  exists argv, executed (log st1) = (executed (log st) ++ [argv])%list.
Proof.
  unfold run_command, bind, print, except_CalledProcessError, raise,
    run_checked.
  destruct (all_str cmd) as [words | ]; [ | discriminate ].
  destruct words as [ | program args]; [ discriminate | ].
  destruct (which program) as [executable | ]; [ | discriminate ].
  cbn [world log].
  destruct (subprocess_run (world st) (executable :: args)) as [w status].
  destruct (status =? 0); cbv beta iota; [ | discriminate ].
  intros [= _ <-]. exists (executable :: args). cbn [log].
  now rewrite !executed_app, app_nil_r.
Qed.

Lemma run_commands_ok (cmds : list (list (option string))) :
  forall (st st1 : state World) u,
    _run_commands cmds st = (Ok u, st1) ->
    List.length (executed (log st1))
    = (List.length (executed (log st)) + List.length cmds)%nat.
Proof.
  induction cmds as [ | cmd t IH]; intros st st1 u; cbn [_run_commands].
  - unfold ret. intros [= _ <-]. cbn [List.length]. lia.
  - unfold bind. destruct (run_command cmd st) as [[[] | e] st'] eqn:E;
      [ | discriminate ].
    intros H. apply IH in H. apply run_command_ok in E as [argv E].
    rewrite H, E, length_app. cbn. lia.
Qed.

(** A command whose program is not resolved raises, and runs nothing. *)
Lemma run_command_unresolved (cmd : list (option string)) (st : state World) :
  unresolved cmd = true ->
  (fst (run_command cmd st) = Raise TypeError
   \/ fst (run_command cmd st) = Raise FileNotFoundError)
  /\ world (snd (run_command cmd st)) = world st
  /\ executed (log (snd (run_command cmd st))) = executed (log st).
Proof.
  unfold unresolved, run_command.
  destruct cmd as [ | [program | ] rest]; [ discriminate | | ].
  - destruct (which program) eqn:Hw; [ discriminate | ]. intros _.
    cbn [all_str]. destruct (all_str rest) as [args | ]; cbn [option_map].
    + unfold bind, print, except_CalledProcessError, raise.
      rewrite Hw. cbn. rewrite executed_app, app_nil_r. auto.
    + cbn. auto.
  - intros _. cbn. auto.
Qed.

(** C2, as the code has it: when the run reaches a command whose program
    cannot be resolved, it aborts with an exception there: the programs of
    the commands before it have been executed, one each, and neither this
    command nor a later one is. No program at all is executed only when
    the unresolved command is the first of the sequence. *)
Theorem run_commands_unresolved
  (pre post : list (list (option string))) (cmd : list (option string))
  (st st1 : state World) :
  _run_commands pre st = (Ok tt, st1) ->
  unresolved cmd = true ->
  let r := _run_commands (pre ++ cmd :: post) st in
  (fst r = Raise TypeError \/ fst r = Raise FileNotFoundError)
  /\ exit_status (fst r) = 1
  /\ world (snd r) = world st1
  /\ executed (log (snd r)) = executed (log st1)
  /\ List.length (executed (log (snd r)))
     = (List.length (executed (log st)) + List.length pre)%nat.
Proof.
  intros Hpre Hcmd r. subst r.
  rewrite run_commands_app, Hpre. cbn [_run_commands]. unfold bind.
  destruct (run_command_unresolved cmd st1 Hcmd) as (He & Hw & Hl).
  apply run_commands_ok in Hpre.
  destruct (run_command cmd st1) as [[[] | e] st2]; cbn [fst snd] in *.
  - destruct He; discriminate.
  - rewrite Hl. repeat split; auto.
    destruct He as [[= ->] | [= ->]]; reflexivity.
Qed.

(** C5: when the command at some position exits with a non-zero status,
    the run ends there with [SystemExit(1)]: what the run has done is what
    the commands before it did, then the echo and the execution of this
    command, and nothing else; no later command is executed and nothing
    is undone. *)
Theorem run_commands_stops_at_failure
  (pre post : list (list (option string))) (cmd : list (option string))
  (st st1 : state World) (program executable : string) (args : list string)
  (w : World) (status : Z) :
  _run_commands pre st = (Ok tt, st1) ->
  all_str cmd = Some (program :: args) ->
  which program = Some executable ->
  subprocess_run (world st1) (executable :: args) = (w, status) ->
  status <> 0 ->
  let r := _run_commands (pre ++ cmd :: post) st in
  fst r = Raise (SystemExit 1)
  /\ exit_status (fst r) <> 0
  /\ snd r
     = {| world := w;
          log := (log st1
                  ++ [Print ("CMD [ " ++ argv0 ++ " ] ==> "
                             ++ Py.join " " (program :: args));
                      Run (executable :: args)])%list |}
  /\ executed (log (snd r))
     = (executed (log st1) ++ [executable :: args])%list.
Proof.
  intros Hpre Hcmd Hw Hrun Hstatus r. subst r.
  rewrite run_commands_app, Hpre. cbn [_run_commands].
  unfold bind, run_command. rewrite Hcmd.
  unfold bind, print, except_CalledProcessError, raise, run_checked.
  rewrite Hw. cbn [world log]. rewrite Hrun.
  apply Z.eqb_neq in Hstatus. rewrite Hstatus. cbn [fst snd exit_status log].
  repeat split.
  - discriminate.
  - now rewrite <- app_assoc.
  - rewrite <- app_assoc, executed_app. reflexivity.
Qed.

(** ** Properties of the mkfs mode *)

(** The loop raises as soon as it meets a filesystem kind that is neither
    [fat32] nor [ext4]. *)
Lemma mkfs_loop_unsupported (device_path : string) (l : list _Mkfs) :
  (exists mkfs, In mkfs l /\ fs mkfs <> "fat32" /\ fs mkfs <> "ext4") ->
  forall cmds, mkfs_loop device_path cmds l = Raise RuntimeError.
Proof.
  induction l as [ | m t IH]; intros (mkfs & Hin & Hfat & Hext) cmds.
  - destruct Hin.
  - cbn [mkfs_loop]. unfold mkfs_cmd.
    destruct (fs m =? "fat32")%string eqn:E1;
      [ cbn [rbind]; apply IH | ].
    + destruct Hin as [-> | Hin]; [ | eauto ].
      apply String.eqb_eq in E1. contradiction.
    + destruct (fs m =? "ext4")%string eqn:E2; [ | reflexivity ].
      cbn [rbind]. apply IH.
      destruct Hin as [-> | Hin]; [ | eauto ].
      apply String.eqb_eq in E2. contradiction.
Qed.

(** C6: in mkfs mode, when the filesystem kind of some partition spec is
    neither [fat32] nor [ext4], the run raises before the command runner
    is entered: the machine is untouched and nothing is printed or
    executed, neither a filesystem-creation command of any partition nor
    [partprobe] or [partx]; the exit status is not zero. *)
Theorem mkfs_unsupported_runs_nothing
  (device_path script : string) parted0 filesystems0 (st : state World) :
  _parse_script script = Ok (parted0, filesystems0) ->
  (exists mkfs,
     In mkfs filesystems0 /\ fs mkfs <> "fat32" /\ fs mkfs <> "ext4") ->
  _mkfs_disk device_path script st = (Raise RuntimeError, st)
  /\ exit_status (fst (_mkfs_disk device_path script st)) <> 0
  /\ executed (log (snd (_mkfs_disk device_path script st)))
     = executed (log st).
Proof.
  intros Hparse Hbad.
  assert (H : _mkfs_disk device_path script st = (Raise RuntimeError, st)).
  { unfold _mkfs_disk, bind, lift, mkfs_cmds. rewrite Hparse. cbn [snd].
    now rewrite (mkfs_loop_unsupported _ _ Hbad). }
  rewrite H. cbn. repeat split; auto. discriminate.
Qed.

(** C9: for the script of one line
    [mkpart primary ext4 1MiB 100% # label=root mount=] and the device
    [/dev/sda], the mkfs mode builds three commands, in this order: the
    ext4 creation with [-L root] on [/dev/sda1], [partprobe /dev/sda] and
    [partx -vu /dev/sda], the program of each being what the search path
    has for its name; and it hands just these to the command runner. *)
Theorem mkfs_scenario (b : Z) (st : state World) :
  parse_bytes "1MiB" = Some b ->
  let script := "mkpart primary ext4 1MiB 100% # label=root mount=" in
  let cmds :=
    [ [which "mkfs.ext4"; Some "-L"; Some "root"; Some "/dev/sda1"];
      [which "partprobe"; Some "/dev/sda"];
      [which "partx"; Some "-vu"; Some "/dev/sda"] ] in
  (exists parted0 filesystems0,
     _parse_script script = Ok (parted0, filesystems0)
     /\ List.length filesystems0 = 1%nat
     /\ mkfs_cmds "/dev/sda" filesystems0 = Ok cmds)
  /\ _mkfs_disk "/dev/sda" script st = _run_commands cmds st.
Proof.
  intros Hb script cmds.
  assert (Hparse :
    _parse_script script
    = Ok ([["mkpart"; "primary"; "ext4"; "1MiB"; "100%"]],
          [Build_Mkfs 1 "ext4" "root" "" "" b 0])).
  { subst script. vm_compute. rewrite Hb. reflexivity. }
  split.
  - do 2 eexists. split; [ exact Hparse | ]. split; reflexivity.
  - unfold _mkfs_disk, bind, lift. rewrite Hparse. reflexivity.
Qed.

(** ** Further properties of the parser *)

(** A line that is accepted lets the loop go on, whatever has been read. *)
Lemma parse_line_accepts (st : parse_state) (line : string) :
  line_ok line = true -> exists st', parse_line st line = Ok st'.
Proof.
  unfold line_ok, parse_line, tokens, parse_size.
  destruct (left_right line) as [left0 right]; cbn [fst].
  destruct (is_mkpart (Py.split_ws left0)); [ | eauto ].
  intros H. apply andb_prop in H as [H He]. apply andb_prop in H as [Hlen Hb].
  rewrite Hlen.
  destruct (parse_bytes (nth 3 (Py.split_ws left0) "")); [ | discriminate ].
  cbn [rbind].
  destruct (nth 4 (Py.split_ws left0) "" =? "100%")%string; [ cbn; eauto | ].
  destruct (parse_bytes (nth 4 (Py.split_ws left0) ""));
    [ cbn; eauto | discriminate ].
Qed.

(** A line that is not accepted is a partition line, and makes the loop
    raise: [AssertionError] when it is too short, [ValueError] when a size
    cannot be read. *)
Lemma parse_line_rejects (st : parse_state) (line : string) :
  line_ok line = false ->
  is_mkpart (tokens line) = true
  /\ parse_line st line
     = Raise (if (List.length (tokens line) <? 5)%nat
              then AssertionError else ValueError).
Proof.
  unfold line_ok, parse_line, tokens, parse_size.
  destruct (left_right line) as [left0 right]; cbn [fst].
  destruct (is_mkpart (Py.split_ws left0)); [ | discriminate ].
  intros H. split; [ reflexivity | ].
  rewrite Nat.ltb_antisym.
  destruct (5 <=? List.length (Py.split_ws left0))%nat; [ | reflexivity ].
  cbn [negb andb] in *.
  destruct (parse_bytes (nth 3 (Py.split_ws left0) "")); [ | reflexivity ].
  cbn [rbind is_some andb] in *.
  destruct (nth 4 (Py.split_ws left0) "" =? "100%")%string; [ discriminate | ].
  destruct (parse_bytes (nth 4 (Py.split_ws left0) ""));
    [ discriminate | reflexivity ].
Qed.

Lemma parse_lines_accepts (lines : list string) :
  forallb line_ok lines = true ->
  forall st, exists st', parse_lines st lines = Ok st'.
Proof.
  induction lines as [ | line rest IH]; intros H st; cbn [parse_lines].
  - eauto.
  - cbn [forallb] in H. apply andb_prop in H as [Hl Hr].
    destruct (parse_line_accepts st line Hl) as [st1 ->]. cbn [rbind]. auto.
Qed.

Lemma parse_lines_first_error (lines : list string) :
  forall st e,
    parse_lines st lines = Raise e ->
    exists pre line post,
      lines = (pre ++ line :: post)%list
      /\ forallb line_ok pre = true
      /\ line_ok line = false
      /\ e = (if (List.length (tokens line) <? 5)%nat
              then AssertionError else ValueError).
Proof.
  induction lines as [ | line rest IH]; intros st e H; cbn [parse_lines] in H.
  - discriminate.
  - destruct (line_ok line) eqn:Hl.
    + destruct (parse_line_accepts st line Hl) as [st1 E]. rewrite E in H.
      cbn [rbind] in H.
      destruct (IH _ _ H) as (pre & l & post & -> & Hpre & Hbad & ->).
      exists (line :: pre), l, post. cbn [forallb]. rewrite Hl, Hpre. auto.
    + destruct (parse_line_rejects st line Hl) as [_ E]. rewrite E in H.
      cbn [rbind] in H. injection H as <-.
      exists [], line, rest. auto.
Qed.

(** X1: the parser returns exactly on the scripts whose non-empty lines are
    all accepted: every partition line has five command tokens, a begin
    token that [parse_bytes] reads and an end token that is [100%] or that
    [parse_bytes] reads. *)
Theorem parse_script_succeeds_iff (script : string) :
  (exists parted0 filesystems0,
     _parse_script script = Ok (parted0, filesystems0))
  <-> forallb line_ok (script_lines script) = true.
Proof.
  unfold _parse_script. split.
  - intros (p & f & H).
    destruct (forallb line_ok (script_lines script)) eqn:E; [ reflexivity | ].
    destruct (parse_lines _ (script_lines script)) as [st | e] eqn:Hp;
      [ | discriminate ].
    exfalso. clear H. revert Hp E.
    generalize {| parted := []; filesystems := []; next_npart := 1 |}.
    induction (script_lines script) as [ | line rest IH]; intros st0;
      cbn [parse_lines forallb]; [ discriminate | ].
    destruct (line_ok line) eqn:Hl.
    + destruct (parse_line st0 line); cbn [rbind]; [ | discriminate ].
      cbn [andb]. eauto.
    + destruct (parse_line_rejects st0 line Hl) as [_ ->]. discriminate.
  - intros H.
    destruct (parse_lines_accepts _ H
                {| parted := []; filesystems := []; next_npart := 1 |})
      as [st ->].
    cbn [rbind]. eauto.
Qed.



(** What [line.split("#", 1)] returns: the text before the first [#], and
    the text after it when there is one. *)
Lemma split1_hash_cases (s : string) :
  exists a,
    Py.all_chars (fun c => negb (Ascii.eqb c "#")) a = true
    /\ ((Py.split1 "#" s = [a] /\ s = a)
        \/ exists b, Py.split1 "#" s = [a; b] /\ s = a ++ String "#" b).
Proof.
  induction s as [ | c s IH]; cbn [Py.split1].
  - exists "". split; [ reflexivity | left; auto ].
  - destruct (Ascii.eqb c "#") eqn:E.
    + apply Ascii.eqb_eq in E. subst c.
      exists "". split; [ reflexivity | right ]. exists s. auto.
    + destruct IH as (a & Ha & [[-> ->] | (b & -> & ->)]).
      * exists (String c a). cbn [Py.all_chars]. rewrite E, Ha.
        split; [ reflexivity | left; auto ].
      * exists (String c a). cbn [Py.all_chars]. rewrite E, Ha.
        split; [ reflexivity | right ]. exists b. auto.
Qed.

Lemma split1_without_hash (a : string) :
  Py.all_chars (fun c => negb (Ascii.eqb c "#")) a = true ->
  Py.split1 "#" a = [a].
Proof.
  induction a as [ | c a IH]; cbn; [ reflexivity | ].
  intros H. apply andb_prop in H as [Hc Ha].
  apply negb_true_iff in Hc. rewrite Hc, (IH Ha). reflexivity.
Qed.

Lemma split1_at_hash (a b : string) :
  Py.all_chars (fun c => negb (Ascii.eqb c "#")) a = true ->
  Py.split1 "#" (a ++ String "#" b) = [a; b].
Proof.
  induction a as [ | c a IH]; cbn; [ reflexivity | ].
  intros H. apply andb_prop in H as [Hc Ha].
  apply negb_true_iff in Hc. rewrite Hc, (IH Ha). reflexivity.
Qed.

(** X3: a line is cut at its first [#]: the command tokens are those of the
    text before it and the comment is the text after it, further [#]
    included; a line without [#] has no comment. So what stands in a comment
    never decides whether the line is a partition line. *)
Theorem line_is_cut_at_first_hash (left right : string) :
  Py.all_chars (fun c => negb (Ascii.eqb c "#")) left = true ->
  tokens (left ++ String "#" right) = Py.split_ws left
  /\ comment (left ++ String "#" right) = right
  /\ is_mkpart (tokens (left ++ String "#" right))
     = is_mkpart (Py.split_ws left)
  /\ tokens left = Py.split_ws left
  /\ comment left = "".
Proof.
  intros H. unfold tokens, comment, left_right.
  rewrite (split1_at_hash _ right H), (split1_without_hash _ H).
  cbn. auto.
Qed.

Lemma all_chars_app (p : ascii -> bool) (a b : string) :
  Py.all_chars p (a ++ b) = Py.all_chars p a && Py.all_chars p b.
Proof.
  induction a as [ | c a IH]; cbn; [ reflexivity | ].
  now rewrite IH, andb_assoc.
Qed.

Lemma truthy_true (s : string) : Py.truthy s = true -> s <> "".
Proof.
  unfold Py.truthy. intros H E. subst s. discriminate.
Qed.

(** The tokens that [str.split()] cuts out of a text whose characters
    satisfy [q]: none is empty, none has whitespace, and their characters
    satisfy [q]. *)
Lemma split_ws_acc_tokens (q : ascii -> bool) (s : string) :
  Py.all_chars q s = true ->
  forall acc,
    Py.all_chars (fun c => negb (Py.isspace c) && q c) acc = true ->
    Forall (fun tok =>
              tok <> ""
              /\ Py.all_chars (fun c => negb (Py.isspace c) && q c) tok = true)
           (Py.split_ws_acc acc s).
Proof.
  induction s as [ | c s IH]; intros Hs acc Hacc; cbn [Py.split_ws_acc].
  - destruct (Py.truthy acc) eqn:E; [ | constructor ].
    repeat constructor; [ now apply truthy_true | exact Hacc ].
  - cbn [Py.all_chars] in Hs. apply andb_prop in Hs as [Hc Hs].
    destruct (Py.isspace c) eqn:Ec.
    + destruct (Py.truthy acc) eqn:E; [ constructor | ]; auto.
      split; [ now apply truthy_true | exact Hacc ].
    + apply IH; [ exact Hs | ].
      rewrite all_chars_app, Hacc. cbn. now rewrite Ec, Hc.
Qed.

Lemma tokens_are_clean (line : string) :
  Forall (fun tok =>
            tok <> ""
            /\ Py.all_chars
                 (fun c => negb (Py.isspace c) && negb (Ascii.eqb c "#")) tok
               = true)
         (tokens line).
Proof.
  unfold tokens, left_right, Py.split_ws.
  destruct (split1_hash_cases line) as (a & Ha & [[-> _] | (b & -> & _)]);
    cbn [app firstn fst]; now apply split_ws_acc_tokens.
Qed.

(** X4: in the raw command-line list that the parser returns, no word is
    empty, and no word has a whitespace character or a [#]. *)
Theorem parse_script_raw_words (script : string) parted0 filesystems0 :
  _parse_script script = Ok (parted0, filesystems0) ->
  Forall
    (Forall (fun tok =>
               tok <> ""
               /\ Py.all_chars
                    (fun c => negb (Py.isspace c) && negb (Ascii.eqb c "#"))
                    tok
                  = true))
    parted0.
Proof.
  intros H. apply parse_script_inv in H as [-> _].
  apply Forall_map, Forall_forall. intros line _. apply tokens_are_clean.
Qed.


(** ** Properties of the partition paths *)

Lemma split_nonempty (sep : ascii) (s : string) : Py.split sep s <> [].
Proof.
  destruct s as [ | c s]; cbn; [ discriminate | ].
  destruct (Ascii.eqb c sep); [ discriminate | ].
  destruct (Py.split sep s); discriminate.
Qed.

(** Splitting commutes with joining two texts by the separator. *)
Lemma split_app (sep : ascii) (a b : string) :
  Py.split sep (a ++ String sep b) = (Py.split sep a ++ Py.split sep b)%list.
Proof.
  induction a as [ | c a IH]; cbn [append Py.split].
  - now rewrite Ascii.eqb_refl.
  - destruct (Ascii.eqb c sep); [ now rewrite IH | ].
    rewrite IH. pose proof (split_nonempty sep a) as Hne.
    destruct (Py.split sep a); [ contradiction | reflexivity ].
Qed.

Lemma split_without_sep (sep : ascii) (s : string) :
  Py.all_chars (fun c => negb (Ascii.eqb c sep)) s = true ->
  Py.split sep s = [s].
Proof.
  induction s as [ | c s IH]; cbn; [ reflexivity | ].
  intros H. apply andb_prop in H as [Hc Hs].
  apply negb_true_iff in Hc. now rewrite Hc, (IH Hs).
Qed.

Lemma basename_of_join (dir name : string) :
  Py.all_chars (fun c => negb (Ascii.eqb c "/")) name = true ->
  Py.basename (dir ++ String "/" name) = name /\ Py.basename name = name.
Proof.
  intros H. unfold Py.basename.
  rewrite split_app, (split_without_sep _ _ H), last_last. auto.
Qed.

(** X5: the partition path is decided by the file name of the device alone,
    whatever directory it is in: the index follows a [p] when the name
    starts with [mmcblk] or [loop], and follows the path directly
    otherwise. *)
Theorem make_partition_by_device_name (dir name : string) (n : Z) :
  Py.all_chars (fun c => negb (Ascii.eqb c "/")) name = true ->
  _make_partition (dir ++ String "/" name) n
  = (dir ++ String "/" name)
    ++ (if Py.startswith "mmcblk" name || Py.startswith "loop" name
        then "p" else "")
    ++ Py.str_of_int n.
Proof.
  intros H. unfold _make_partition.
  destruct (basename_of_join dir name H) as [-> _].
  now destruct (Py.startswith "mmcblk" name || Py.startswith "loop" name).
Qed.

Lemma append_inj_l (p a b : string) : p ++ a = p ++ b -> a = b.
Proof.
  induction p as [ | c p IH]; cbn; [ auto | ].
  intros [= H]. auto.
Qed.

Lemma str_of_int_inj (n m : Z) : Py.str_of_int n = Py.str_of_int m -> n = m.
Proof.
  unfold Py.str_of_int. intros H.
  apply (f_equal NilEmpty.int_of_string) in H.
  rewrite !NilEmpty.isi in H. injection H as H.
  now apply DecimalZ.to_int_inj.
Qed.

Lemma str_of_int_nonempty (n : Z) : Py.str_of_int n <> "".
Proof.
  unfold Py.str_of_int. intros H.
  assert (E : n = 0).
  { apply (f_equal NilEmpty.int_of_string) in H.
    rewrite NilEmpty.isi in H. cbn in H. injection H as H.
    apply (f_equal Z.of_int) in H. now rewrite DecimalZ.of_to in H. }
  subst n. discriminate.
Qed.

Lemma append_nonempty_neq (p a : string) : a <> "" -> p ++ a <> p.
Proof.
  intros Ha H. apply Ha. apply (append_inj_l p).
  rewrite H. clear. induction p as [ | c p IH]; cbn; [ reflexivity | ].
  now rewrite <- IH.
Qed.

(** X6: on one device, two partition indexes have the same partition path
    only when they are equal, and no partition path is the path of the
    device itself. *)
Theorem make_partition_injective (path : string) (n m : Z) :
  (_make_partition path n = _make_partition path m <-> n = m)
  /\ _make_partition path n <> path.
Proof.
  unfold _make_partition.
  destruct (Py.startswith "mmcblk" (Py.basename path)
            || Py.startswith "loop" (Py.basename path)); split.
  - split; [ | now intros -> ]. intros H.
    apply append_inj_l in H. apply (append_inj_l "p") in H.
    now apply str_of_int_inj.
  - apply append_nonempty_neq. discriminate.
  - split; [ | now intros -> ]. intros H.
    apply append_inj_l in H. now apply str_of_int_inj.
  - apply append_nonempty_neq, str_of_int_nonempty.
Qed.


(** ** Further properties of the mount order *)

Lemma StronglySorted_snoc {A : Type} (R : A -> A -> Prop) (l : list A) (x : A) :
  StronglySorted R l -> Forall (fun y => R y x) l ->
  StronglySorted R (l ++ [x]).
Proof.
  induction 1 as [ | y t Ht IH Hy]; intros Hx; cbn.
  - repeat constructor.
  - inversion Hx as [ | ? ? Hyx Htx]; subst.
    constructor; [ auto | ].
    apply Forall_app. split; [ exact Hy | repeat constructor; exact Hyx ].
Qed.

Lemma StronglySorted_rev {A : Type} (R : A -> A -> Prop) (l : list A) :
  StronglySorted R l -> StronglySorted (fun a b => R b a) (rev l).
Proof.
  induction 1 as [ | y t Ht IH Hy]; cbn; [ constructor | ].
  apply StronglySorted_snoc; [ exact IH | now apply Forall_rev ].
Qed.

(** X7: both orders visit every partition once. The order used for
    mounting goes by increasing depth of the mount path, so that a partition
    comes before every partition mounted deeper; the order used for
    unmounting goes by decreasing depth. *)
Theorem mount_order_by_depth (l : list _Mkfs) :
  Permutation l (mount_order l true)
  /\ StronglySorted (fun a b => (depth a <= depth b)%nat) (mount_order l true)
  /\ Permutation l (mount_order l false)
  /\ StronglySorted (fun a b => (depth b <= depth a)%nat)
       (mount_order l false).
Proof.
  unfold mount_order; cbn [negb]. repeat split.
  - apply sorted_perm.
  - apply sorted_ascending.
  - rewrite <- Permutation_rev. apply sorted_perm.
  - apply (StronglySorted_rev (fun a b => (depth a <= depth b)%nat)).
    apply sorted_ascending.
Qed.

Lemma flat_map_skip {A B : Type} (p : A -> bool) (g : A -> list B)
  (l : list A) :
  flat_map (fun a => if p a then g a else []) l = flat_map g (filter p l).
Proof.
  induction l as [ | a t IH]; cbn; [ reflexivity | ].
  destruct (p a); cbn; now rewrite IH.
Qed.

Lemma flat_map_singleton_rev {A B : Type} (h : A -> B) (l : list A) :
  flat_map (fun a => [h a]) (rev l) = rev (map h l).
Proof.
  induction l as [ | a t IH]; cbn; [ reflexivity | ].
  now rewrite flat_map_app, IH; cbn.
Qed.

Lemma filter_length_perm {A : Type} (p : A -> bool) (l l' : list A) :
  Permutation l l' ->
  List.length (filter p l) = List.length (filter p l').
Proof.
  induction 1 as [ | x l l' _ IH | x y l | l l' l'' _ IH1 _ IH2]; cbn.
  - reflexivity.
  - destruct (p x); cbn; now rewrite IH.
  - destruct (p x), (p y); reflexivity.
  - now rewrite IH1.
Qed.

(** X8: mounting and unmounting deal with the same partitions, those that
    have a mount path, and unmounting takes them in the reverse of the order
    of mounting. Mounting issues two commands for each of them, a [mkdir -p]
    and a [mount] of the directory under the prefix, and unmounting one
    [umount] of the partition. *)
Theorem umount_reverses_mount
  (device_path prefix_path other_prefix : string) (l : list _Mkfs) :
  let visited := filter has_mount (mount_order l true) in
  mount_cmds device_path prefix_path true l
  = flat_map
      (fun mkfs =>
         [ [which "mkdir"; Some "-p";
            Some (prefix_path ++ "/" ++ mount mkfs)];
           [which "mount";
            Some (_make_partition device_path (npart mkfs));
            Some (prefix_path ++ "/" ++ mount mkfs)] ])
      visited
  /\ mount_cmds device_path other_prefix false l
     = rev (map (fun mkfs =>
                   [which "umount";
                    Some (_make_partition device_path (npart mkfs))])
                visited)
  /\ List.length (mount_cmds device_path prefix_path true l)
     = (2 * List.length (filter has_mount l))%nat
  /\ List.length (mount_cmds device_path other_prefix false l)
     = List.length (filter has_mount l).
Proof.
  intros visited.
  assert (Hm : mount_cmds device_path prefix_path true l
               = flat_map
                   (fun mkfs =>
                      [ [which "mkdir"; Some "-p";
                         Some (prefix_path ++ "/" ++ mount mkfs)];
                        [which "mount";
                         Some (_make_partition device_path (npart mkfs));
                         Some (prefix_path ++ "/" ++ mount mkfs)] ])
                   visited).
  { unfold mount_cmds, mount_cmd, visited, has_mount.
    now rewrite <- flat_map_skip. }
  assert (Hu : mount_cmds device_path other_prefix false l
               = rev (map (fun mkfs =>
                             [which "umount";
                              Some (_make_partition device_path (npart mkfs))])
                          visited)).
  { unfold mount_cmds, mount_cmd, visited, has_mount.
    rewrite (flat_map_skip (fun m => Py.truthy (mount m))
               (fun m => [[which "umount";
                           Some (_make_partition device_path (npart m))]])).
    unfold mount_order; cbn [negb].
    now rewrite filter_rev, flat_map_singleton_rev. }
  assert (Hlen : List.length visited = List.length (filter has_mount l)).
  { unfold visited. symmetry. apply filter_length_perm.
    apply (mount_order_mount l). }
  repeat split; [ exact Hm | exact Hu | | ].
  - rewrite Hm, <- Hlen. clear.
    induction visited as [ | m t IH]; cbn [flat_map app List.length];
      [ reflexivity | ].
    rewrite IH. lia.
  - now rewrite Hu, length_rev, length_map.
Qed.

(** ** Further properties of the size computation *)

Lemma minimum_size_bounds (l : list _Mkfs) :
  minimum_size l mod 4096 = 0
  /\ minimum_size l <= size_loop 0 l + 2 * 1024 * 1024 * 1024
  /\ size_loop 0 l + 2 * 1024 * 1024 * 1024 < minimum_size l + 4096.
Proof.
  unfold minimum_size. cbv zeta.
  change (2048 * 1024 * 1024) with (2 * 1024 * 1024 * 1024).
  generalize (size_loop 0 l + 2 * 1024 * 1024 * 1024). intros s.
  pose proof (Z.mod_pos_bound s 4096 ltac:(lia)) as Hb.
  repeat split; try lia.
  rewrite Zminus_mod_idemp_r, Z.sub_diag. reflexivity.
Qed.

(** X9: the minimum size is a multiple of 4096, and it is the largest one
    that does not exceed the offset kept from the last partition plus the
    slack of 2 GiB; it lies less than 4096 bytes below that sum. *)
Theorem minimum_size_aligned (l : list _Mkfs) (n : Z) :
  minimum_size l mod 4096 = 0
  /\ minimum_size l <= size_loop 0 l + 2 * 1024 * 1024 * 1024
  /\ size_loop 0 l + 2 * 1024 * 1024 * 1024 < minimum_size l + 4096
  /\ (n mod 4096 = 0 /\ n <= size_loop 0 l + 2 * 1024 * 1024 * 1024
      -> n <= minimum_size l).
Proof.
  destruct (minimum_size_bounds l) as (Hm & Hle & Hlt).
  repeat split; auto.
  intros [Hn Hnle].
  apply Z.mod_divide in Hm, Hn; try lia.
  destruct Hm as [a Ha], Hn as [b Hb]. lia.
Qed.


(** ** Further properties of the command runner *)

(** What one turn of the loop does. Either the command cannot be executed:
    the turn raises, having printed one line at most. Or it is executed,
    right after its echo, and the turn returns when the exit status is zero
    and raises [SystemExit(1)] otherwise. *)
Lemma run_command_cases (cmd : list (option string)) (st : state World) :
  (argv_of cmd = None
   /\ (fst (run_command cmd st) = Raise TypeError
       \/ fst (run_command cmd st) = Raise IndexError
       \/ fst (run_command cmd st) = Raise FileNotFoundError)
   /\ world (snd (run_command cmd st)) = world st
   /\ exists new,
        log (snd (run_command cmd st)) = (log st ++ new)%list
        /\ executed new = []
        /\ echoed new = true)
  \/ (exists argv line,
        argv_of cmd = Some argv
        /\ fst (run_command cmd st)
           = (if snd (subprocess_run (world st) argv) =? 0
              then Ok tt else Raise (SystemExit 1))
        /\ world (snd (run_command cmd st))
           = fst (subprocess_run (world st) argv)
        /\ log (snd (run_command cmd st))
           = (log st ++ [Print line; Run argv])%list).
Proof.
  unfold argv_of, run_command, bind, print, except_CalledProcessError, raise,
    run_checked.
  destruct (all_str cmd) as [[ | program args] | ].
  - left. cbn [fst snd world log]. repeat split; auto.
    eexists. repeat split; reflexivity.
  - destruct (which program) as [executable | ].
    + right. exists (executable :: args).
      exists ("CMD [ " ++ argv0 ++ " ] ==> " ++ Py.join " " (program :: args)).
      cbn [world log].
      destruct (subprocess_run (world st) (executable :: args)) as [w status].
      cbn [fst snd]. split; [ reflexivity | ].
      destruct (status =? 0); cbn [fst snd world log];
        rewrite <- app_assoc; repeat split; reflexivity.
    + left. cbn [fst snd world log]. repeat split; auto.
      eexists. repeat split; reflexivity.
  - left. cbn [fst snd]. repeat split; auto.
    exists []. rewrite app_nil_r. auto.
Qed.

(** X10: the programs that a run executes are those of a front part of the
    command list, one for each command and in the order of the list: the
    run never executes anything else, never skips a command and never
    executes one twice. When the run returns, it has executed the whole
    list. *)
Theorem run_commands_executes_prefix
  (cmds : list (list (option string))) (st : state World) :
  exists k argvs,
    (k <= List.length cmds)%nat
    /\ map argv_of (firstn k cmds) = map Some argvs
    /\ executed (log (snd (_run_commands cmds st)))
       = (executed (log st) ++ argvs)%list
    /\ (fst (_run_commands cmds st) = Ok tt -> k = List.length cmds).
Proof.
  revert st. induction cmds as [ | cmd rest IH]; intros st.
  - exists 0%nat, []. cbn. rewrite app_nil_r. auto.
  - cbn [_run_commands]. unfold bind.
    destruct (run_command_cases cmd st)
      as [(Ha & He & Hw & new & Hl & Hx & _)
         | (argv & line & Ha & He & Hw & Hl)].
    + destruct (run_command cmd st) as [[[] | e] st1]; cbn [fst snd] in *.
      * destruct He as [He | [He | He]]; discriminate.
      * exists 0%nat, []. cbn [firstn map fst snd].
        rewrite Hl, executed_app, Hx. repeat split; try lia; auto.
        discriminate.
    + destruct (run_command cmd st) as [[[] | e] st1]; cbn [fst snd] in *.
      * destruct (IH st1) as (k & argvs & Hk & Hmap & Hex & Hok).
        exists (S k), (argv :: argvs). cbn [firstn map List.length].
        rewrite Ha, Hmap, Hex, Hl, executed_app. cbn [executed].
        rewrite <- app_assoc. repeat split; try lia; auto.
      * exists 1%nat, [argv]. cbn [firstn map List.length fst snd].
        rewrite Ha, Hl, executed_app. cbn [executed].
        repeat split; try lia; auto. discriminate.
Qed.

(** X11: when every command of the list has a program that the search path
    resolves, and these programs exit with status zero whatever the machine
    is like, the run returns and has executed every command of the list, in
    order. *)
Theorem run_commands_all_succeed
  (cmds : list (list (option string))) (st : state World) :
  (forall cmd,
     In cmd cmds ->
     exists argv,
       argv_of cmd = Some argv
       /\ forall w, snd (subprocess_run w argv) = 0) ->
  fst (_run_commands cmds st) = Ok tt
  /\ exists argvs,
       map argv_of cmds = map Some argvs
       /\ executed (log (snd (_run_commands cmds st)))
          = (executed (log st) ++ argvs)%list.
Proof.
  revert st. induction cmds as [ | cmd rest IH]; intros st Hall.
  - split; [ reflexivity | ]. exists []. cbn. now rewrite app_nil_r.
  - cbn [_run_commands]. unfold bind.
    destruct (Hall cmd (or_introl eq_refl)) as (argv & Ha & Hzero).
    destruct (run_command_cases cmd st)
      as [(Ha' & _) | (argv' & line & Ha' & He & Hw & Hl)];
      [ congruence | ].
    assert (argv' = argv) by congruence. subst argv'.
    rewrite Hzero in He.
    destruct (run_command cmd st) as [[[] | e] st1]; cbn [fst snd] in *;
      [ | discriminate ].
    destruct (IH st1) as (Hok & argvs & Hmap & Hex).
    { intros c Hc. apply Hall. now right. }
    split; [ exact Hok | ].
    exists (argv :: argvs). cbn [map]. rewrite Ha, Hmap, Hex, Hl, executed_app.
    cbn [executed]. now rewrite <- app_assoc.
Qed.


Lemma echoed_after_run (line : string) (argv : list string) (l : list event) :
  echoed (Print line :: Run argv :: l) = echoed l.
Proof. reflexivity. Qed.

(** X13: in what a run adds to the log, every execution of a program comes
    right after a printed line, the echo of its command; nothing is executed
    without its echo. *)
Theorem run_commands_echoes
  (cmds : list (list (option string))) (st : state World) :
  exists new,
    log (snd (_run_commands cmds st)) = (log st ++ new)%list
    /\ echoed new = true.
Proof.
  revert st. induction cmds as [ | cmd rest IH]; intros st.
  - exists []. cbn. now rewrite app_nil_r.
  - cbn [_run_commands]. unfold bind.
    destruct (run_command_cases cmd st)
      as [(_ & He & _ & new & Hl & _ & Hech)
         | (argv & line & _ & _ & _ & Hl)].
    + destruct (run_command cmd st) as [[[] | e] st1]; cbn [fst snd] in *.
      * destruct He as [He | [He | He]]; discriminate.
      * exists new. auto.
    + destruct (run_command cmd st) as [[[] | e] st1]; cbn [fst snd] in *.
      * destruct (IH st1) as (new & Hn & Hech).
        exists (Print line :: Run argv :: new).
        rewrite Hn, Hl, <- app_assoc. split; [ reflexivity | exact Hech ].
      * exists [Print line; Run argv]. auto.
Qed.


(** ** Further properties of the modes *)

Lemma mkfs_cmd_supported (device_path : string) (mkfs : _Mkfs) :
  supported mkfs = true ->
  exists flags,
    mkfs_cmd device_path mkfs
    = Ok ([which (mkfs_program mkfs)] ++ flags
          ++ [Some (_make_partition device_path (npart mkfs))])%list.
Proof.
  unfold supported, mkfs_cmd, mkfs_program.
  destruct (fs mkfs =? "fat32")%string.
  - intros _. cbn [rbind].
    exists (if Py.truthy (label mkfs)
            then [Some "-n"; Some (label mkfs)] else []).
    rewrite <- app_assoc. reflexivity.
  - destruct (fs mkfs =? "ext4")%string; [ | discriminate ].
    intros _. cbn [rbind].
    exists ((if Py.truthy (label mkfs)
             then [Some "-L"; Some (label mkfs)] else [])
            ++ (if Py.truthy (reserved mkfs)
                then [Some "-m"; Some (reserved mkfs)] else []))%list.
    rewrite <- !app_assoc. reflexivity.
Qed.

Lemma mkfs_loop_supported (device_path : string) (l : list _Mkfs) :
  forallb supported l = true ->
  forall acc,
    exists body,
      mkfs_loop device_path acc l = Ok (acc ++ body)%list
      /\ map (hd None) body = map (fun m => which (mkfs_program m)) l
      /\ map (fun cmd => last cmd None) body
         = map (fun m => Some (_make_partition device_path (npart m))) l.
Proof.
  induction l as [ | m t IH]; cbn [forallb mkfs_loop]; intros H acc.
  - exists []. now rewrite app_nil_r.
  - apply andb_prop in H as [Hm Ht].
    destruct (mkfs_cmd_supported device_path m Hm) as [flags ->].
    cbn [rbind].
    destruct (IH Ht (acc ++ [[which (mkfs_program m)] ++ flags
                               ++ [Some (_make_partition device_path
                                           (npart m))]])%list)
      as (body & -> & Hhd & Hlast).
    eexists (_ :: body). rewrite <- app_assoc. split; [ reflexivity | ].
    cbn [map]. rewrite Hhd, Hlast. split; [ reflexivity | ].
    f_equal. now rewrite app_assoc, last_last.
Qed.

(** X14: the mkfs command list can be built exactly when every partition
    has one of the kinds [fat32] and [ext4]. *)
Theorem mkfs_cmds_ok_iff (device_path : string) (l : list _Mkfs) :
  (exists cmds, mkfs_cmds device_path l = Ok cmds)
  <-> forallb supported l = true.
Proof.
  unfold mkfs_cmds. split.
  - intros [cmds H].
    destruct (forallb supported l) eqn:E; [ reflexivity | exfalso ].
    rewrite mkfs_loop_unsupported in H; [ discriminate | ].
    clear H. induction l as [ | m t IH]; cbn [forallb] in E;
      [ discriminate | ].
    destruct (supported m) eqn:Em.
    + destruct (IH E) as (x & Hin & Hx). exists x. split; [ now right | auto ].
    + exists m. split; [ now left | ].
      unfold supported in Em. apply orb_false_elim in Em as [E1 E2].
      split; now apply String.eqb_neq.
  - intros H. destruct (mkfs_loop_supported device_path l H []) as (body & -> & _).
    cbn [rbind]. eauto.
Qed.

Lemma parse_script_ranks (script : string) parted0 filesystems0 :
  _parse_script script = Ok (parted0, filesystems0) ->
  map npart filesystems0
  = map Z.of_nat (seq 1 (List.length filesystems0)).
Proof.
  intros H. apply parse_script_inv in H as [_ Hall].
  rewrite (Forall2_numbered_ranks (fun n l mkfs => spec_of n l mkfs)
             npart _ (fun n a b H => proj1 (proj2 H)) _ _ Hall).
  rewrite <- seq_shift, map_map. apply map_ext. intros k. lia.
Qed.

(** X15: for a script that parses into partitions of supported kinds, the
    mkfs mode builds one command for each partition, in script order,
    followed by the [partprobe] and [partx] commands; the command of the
    [k]-th partition line starts with the program of its kind and ends with
    the path of partition [k] of the device. *)
Theorem mkfs_targets_partitions_in_order
  (device_path script : string) parted0 filesystems0 :
  _parse_script script = Ok (parted0, filesystems0) ->
  forallb supported filesystems0 = true ->
  exists body,
    mkfs_cmds device_path filesystems0
    = Ok (body ++ reread_cmds device_path)%list
    /\ map (hd None) body
       = map (fun m => which (mkfs_program m)) filesystems0
    /\ map (fun cmd => last cmd None) body
       = map (fun k => Some (_make_partition device_path (Z.of_nat k)))
           (seq 1 (List.length filesystems0)).
Proof.
  intros Hparse Hsup. unfold mkfs_cmds.
  destruct (mkfs_loop_supported device_path _ Hsup [])
    as (body & -> & Hhd & Hlast).
  exists body. cbn [rbind app]. repeat split; [ exact Hhd | ].
  rewrite Hlast, <- (map_map npart (fun n => Some (_make_partition device_path n))).
  rewrite (parse_script_ranks _ _ _ Hparse), map_map. reflexivity.
Qed.

(** X16: for a script that parses, the format mode runs one [parted]
    command for each line of the script that is not empty, in script order,
    with the command tokens of the line as its arguments, and then
    [partprobe] and [partx]. A line that has only blanks or only a comment
    gives a [parted] command without arguments of its own. *)
Theorem format_replays_lines
  (device_path script : string) parted0 filesystems0 (st : state World) :
  _parse_script script = Ok (parted0, filesystems0) ->
  _format_disk device_path script st
  = _run_commands
      (map (fun line =>
              [which "parted"; Some device_path; Some "-a"; Some "optimal";
               Some "-s"] ++ map Some (tokens line))%list
           (script_lines script)
       ++ reread_cmds device_path)%list st
  /\ List.length (format_cmds device_path parted0)
     = (List.length (script_lines script) + 2)%nat.
Proof.
  intros H. unfold _format_disk, bind, lift. rewrite H. cbn [fst].
  apply parse_script_inv in H as [-> _].
  unfold format_cmds. rewrite map_map. split; [ reflexivity | ].
  now rewrite length_app, !length_map.
Qed.

(** X17: called with a mode that it does not know, or with the wrong number
    of arguments for the mode, [main] raises [SystemExit] with a usage
    message; it has read no script, printed no command and executed
    nothing. *)
Theorem main_usage_error (args : list string) (stdin : string)
  (st : state World) :
  valid_invocation args = false ->
  exists message,
    main args stdin st = (Raise (SystemExitUsage message), st).
Proof.
  unfold valid_invocation, main, raise.
  destruct args as [ | mode [ | a [ | b [ | c rest]]]]; intros H;
    try (now eauto);
    destruct (mode =? "format")%string; try (now eauto); try discriminate;
    destruct (mode =? "mkfs")%string; try (now eauto); try discriminate;
    destruct (mode =? "mount")%string; try (now eauto); try discriminate;
    destruct (mode =? "umount")%string; try (now eauto); try discriminate;
    destruct (mode =? "print-size")%string; try (now eauto); discriminate.
Qed.

(** X18: when the script does not parse, no mode does anything: whatever
    the arguments, [main] ends with exit status 1, having printed and
    executed nothing. *)
Theorem main_parse_error (args : list string) (stdin : string) (e : exn)
  (st : state World) :
  _parse_script stdin = Raise e ->
  snd (main args stdin st) = st
  /\ exit_status (fst (main args stdin st)) = 1.
Proof.
  intros H.
  assert (He : exit_status (@Raise unit e) = 1).
  { unfold _parse_script in H.
    destruct (parse_lines _ (script_lines stdin)) as [s0 | e'] eqn:Hp;
      [ discriminate | ].
    cbn [rbind] in H. injection H as <-.
    apply parse_lines_first_error in Hp as (_ & line & _ & _ & _ & _ & ->).
    now destruct (List.length (tokens line) <? 5)%nat. }
  unfold main, _format_disk, _mkfs_disk, _mount_disk, _print_size, bind, lift,
    raise.
  rewrite H.
  destruct args as [ | mode [ | a [ | b [ | c rest]]]];
    try (split; [ reflexivity | exact He || reflexivity ]);
    destruct (mode =? "format")%string;
    try (split; [ reflexivity | exact He || reflexivity ]);
    destruct (mode =? "mkfs")%string;
    try (split; [ reflexivity | exact He || reflexivity ]);
    destruct (mode =? "mount")%string;
    try (split; [ reflexivity | exact He || reflexivity ]);
    destruct (mode =? "umount")%string;
    try (split; [ reflexivity | exact He || reflexivity ]);
    destruct (mode =? "print-size")%string;
    split; first [ reflexivity | exact He ].
Qed.

(** X19: for a script that parses, the print-size mode prints one line and
    returns: the decimal writing of the minimum size of the partitions,
    which is a multiple of 4096; it executes no program and leaves the
    machine as it is. *)
Theorem print_size_prints
  (script : string) parted0 filesystems0 (st : state World) :
  _parse_script script = Ok (parted0, filesystems0) ->
  main ["print-size"] script st
  = (Ok tt,
     {| world := world st;
        log := (log st
                ++ [Print (Py.str_of_int (minimum_size filesystems0))])%list |})
  /\ minimum_size filesystems0 mod 4096 = 0
  /\ executed (log (snd (main ["print-size"] script st)))
     = executed (log st).
Proof.
  intros H.
  assert (E : main ["print-size"] script st
              = (Ok tt,
                 {| world := world st;
                    log := (log st
                            ++ [Print (Py.str_of_int
                                         (minimum_size filesystems0))])%list
                 |})).
  { unfold main. cbn [String.eqb Ascii.eqb Bool.eqb].
    unfold _print_size, bind, lift, print. now rewrite H. }
  rewrite E. split; [ reflexivity | ].
  split; [ apply minimum_size_bounds | ].
  cbn [snd log]. rewrite executed_app. cbn. now rewrite app_nil_r.
Qed.


(** ** Scripts without comments *)

Lemma all_chars_split (p : ascii -> bool) (sep : ascii) (s : string) :
  Py.all_chars p s = true ->
  Forall (fun l => Py.all_chars p l = true) (Py.split sep s).
Proof.
  induction s as [ | c s IH]; cbn [Py.all_chars Py.split]; intros H.
  - repeat constructor.
  - apply andb_prop in H as [Hc Hs]. specialize (IH Hs).
    destruct (Ascii.eqb c sep); [ now constructor | ].
    destruct (Py.split sep s) as [ | h t]; [ repeat constructor; cbn | ].
    + now rewrite Hc.
    + inversion IH; subst. constructor; [ cbn; now rewrite Hc | assumption ].
Qed.

Lemma Forall2_numbered_Forall {A B : Type} (R : Z -> A -> B -> Prop)
  (Q : A -> Prop) (P : B -> Prop) (l : list A) :
  (forall n a b, R n a b -> Q a -> P b) ->
  Forall Q l ->
  forall n l',
    Forall2 (fun na b => R (fst na) (snd na) b) (number_from n l) l' ->
    Forall P l'.
Proof.
  intros HR. induction 1 as [ | a t Ha Ht IH]; intros n l' H; cbn in H.
  - inversion H; constructor.
  - inversion H as [ | ? b ? t' Hab Hrest]; subst. cbn in Hab.
    constructor; eauto.
Qed.

(** X20: a script without any [#] has no metadata: when it parses, its
    partitions have an empty label, an empty reserved percentage and an
    empty mount path, so that the mount and umount modes build no command
    and return without having printed or executed anything. *)
Theorem script_without_comments
  (script device_path prefix_path : string) (mount_flag : bool)
  parted0 filesystems0 (st : state World) :
  _parse_script script = Ok (parted0, filesystems0) ->
  Py.all_chars (fun c => negb (Ascii.eqb c "#")) script = true ->
  Forall (fun m => label m = "" /\ reserved m = "" /\ mount m = "")
         filesystems0
  /\ mount_cmds device_path prefix_path mount_flag filesystems0 = []
  /\ _mount_disk device_path prefix_path mount_flag script st = (Ok tt, st).
Proof.
  intros Hparse Hhash.
  assert (Hmeta : Forall (fun m => label m = "" /\ reserved m = ""
                                   /\ mount m = "") filesystems0).
  { pose proof Hparse as H. apply parse_script_inv in H as [_ Hall].
    revert Hall.
    apply (Forall2_numbered_Forall (fun n l mkfs => spec_of n l mkfs)
             (fun l => Py.all_chars (fun c => negb (Ascii.eqb c "#")) l
                       = true)).
    - intros n line m (_ & _ & _ & Hl & Hr & Hm & _) Hline.
      unfold comment, left_right in Hl, Hr, Hm.
      rewrite (split1_without_hash _ Hline) in Hl, Hr, Hm. auto.
    - apply Forall_forall. intros line Hin.
      apply filter_In in Hin as [Hin _].
      unfold script_lines in Hin. apply filter_In in Hin as [Hin _].
      pose proof (all_chars_split _ "010" _ Hhash) as Hsplit.
      rewrite Forall_forall in Hsplit. auto. }
  assert (Hcmds : mount_cmds device_path prefix_path mount_flag filesystems0
                  = []).
  { unfold mount_cmds.
    assert (Hord : Forall (fun m => mount m = "")
                     (mount_order filesystems0 mount_flag)).
    { apply Forall_forall. intros m Hin.
      rewrite Forall_forall in Hmeta. apply Hmeta.
      destruct mount_flag.
      - eapply Permutation_in; [ symmetry | exact Hin ].
        apply mount_order_mount.
      - eapply Permutation_in; [ symmetry | exact Hin ].
        unfold mount_order; cbn [negb].
        rewrite <- Permutation_rev. apply sorted_perm. }
    induction Hord as [ | m t Hm _ IH]; cbn [flat_map]; [ reflexivity | ].
    rewrite IH. unfold mount_cmd. now rewrite Hm. }
  repeat split; [ exact Hmeta | exact Hcmds | ].
  unfold _mount_disk, bind, lift. rewrite Hparse. cbn [snd].
  now rewrite Hcmds.
Qed.

End Disk.

(** ** The theorems on concrete scripts *)

Lemma end_offset_of_end_token_witness :
  _parse_script Dask.parse_bytes Demo.script
  = Ok (Demo.parted, Demo.filesystems)
  /\ Forall2
       (fun left mkfs =>
          (nth 4 left "" = "100%" -> end_ mkfs = 0)
          /\ (nth 4 left "" <> "100%" ->
              Dask.parse_bytes (nth 4 left "") = Some (end_ mkfs))
          /\ (end_ mkfs = 0 <->
              nth 4 left "" = "100%"
              \/ Dask.parse_bytes (nth 4 left "") = Some 0))
       (filter is_mkpart Demo.parted) Demo.filesystems.
Proof.
  split; [ reflexivity | ].
  apply (end_offset_of_end_token Dask.parse_bytes Demo.script).
  reflexivity.
Defined.

(** C1 fails as stated: the end token [0] is not [100%], and the end offset
    of its partition is 0. *)
Lemma end_offset_zero_without_sentinel :
  exists left mkfs,
    _parse_script Dask.parse_bytes Demo.script_end_zero = Ok ([left], [mkfs])
    /\ is_mkpart left = true
    /\ end_ mkfs = 0
    /\ nth 4 left "" <> "100%".
Proof.
  do 2 eexists. split; [ reflexivity | ].
  split; [ reflexivity | ]. split; [ reflexivity | ]. discriminate.
Qed.

Lemma parse_script_one_spec_per_mkpart_line_witness :
  _parse_script Dask.parse_bytes Demo.script
  = Ok (Demo.parted, Demo.filesystems)
  /\ List.length Demo.filesystems
     = List.length
         (filter is_mkpart (map tokens (Py.split "010" Demo.script)))
  /\ Forall2 (fun nl mkfs => spec_of Dask.parse_bytes (fst nl) (snd nl) mkfs)
       (number_from 1
          (filter (fun l => is_mkpart (tokens l))
                  (Py.split "010" Demo.script)))
       Demo.filesystems
  /\ map npart Demo.filesystems
     = map Z.of_nat (seq 1 (List.length Demo.filesystems)).
Proof.
  split; [ reflexivity | ].
  apply (parse_script_one_spec_per_mkpart_line Dask.parse_bytes Demo.script
           Demo.parted).
  reflexivity.
Defined.

Lemma parse_script_raw_lines_witness :
  _parse_script Dask.parse_bytes Demo.script
  = Ok (Demo.parted, Demo.filesystems)
  /\ Demo.parted = map tokens (filter Py.truthy (Py.split "010" Demo.script))
  /\ List.length Demo.filesystems
     = List.length (filter is_mkpart Demo.parted)
  /\ (forall line,
        blank line = true ->
        tokens line = [] /\ is_mkpart (tokens line) = false).
Proof.
  split; [ reflexivity | ].
  apply (parse_script_raw_lines Dask.parse_bytes Demo.script Demo.parted
           Demo.filesystems).
  reflexivity.
Defined.

(** C8 fails as stated: the second line of the script is blank, and the raw
    list has an entry for it; it is not the list of the token lists of the
    lines that are not blank. *)
Lemma blank_line_is_kept :
  nth 1 (Py.split "010" Demo.script) "" = "   "
  /\ blank "   " = true
  /\ exists parted0 filesystems0,
       _parse_script Dask.parse_bytes Demo.script = Ok (parted0, filesystems0)
       /\ nth 1 parted0 ["?"] = []
       /\ parted0
          <> map tokens
               (filter (fun l => negb (blank l)) (Py.split "010" Demo.script)).
Proof.
  split; [ reflexivity | ]. split; [ reflexivity | ].
  do 2 eexists. split; [ reflexivity | ]. split; [ reflexivity | ].
  vm_compute. discriminate.
Qed.

Lemma mkpart_fields_are_positional_witness :
  _parse_script Dask.parse_bytes Demo.script_keywords_last
  = Ok ([["unit"; "MiB"; "ext4"; "1MiB"; "100%"; "mkpart"; "primary"]],
        [Build_Mkfs 1 "ext4" "" "" "" 1048576 0])
  /\ (forall left,
        is_mkpart left = true <->
        In "mkpart" left /\ (In "primary" left \/ In "logical" left))
  /\ Forall2
       (fun left mkfs =>
          fs mkfs = nth 2 left ""
          /\ Dask.parse_bytes (nth 3 left "") = Some (begin mkfs)
          /\ (if (nth 4 left "" =? "100%")%string then end_ mkfs = 0
              else Dask.parse_bytes (nth 4 left "") = Some (end_ mkfs)))
       (filter is_mkpart
          [["unit"; "MiB"; "ext4"; "1MiB"; "100%"; "mkpart"; "primary"]])
       [Build_Mkfs 1 "ext4" "" "" "" 1048576 0].
Proof.
  split; [ reflexivity | ].
  apply (mkpart_fields_are_positional Dask.parse_bytes
           Demo.script_keywords_last).
  reflexivity.
Defined.

(** C3 fails as stated: the two partitions of the script have mount paths
    of depth 1, and the order used for unmounting has the second one
    first. *)
Lemma umount_order_reverses_ties :
  _parse_script Dask.parse_bytes Demo.script
  = Ok (Demo.parted, Demo.filesystems)
  /\ map depth Demo.filesystems = [1; 1]%nat
  /\ map npart (mount_order Demo.filesystems false) = [2; 1]
  /\ filter (fun m => depth m =? 1)%nat (mount_order Demo.filesystems false)
     <> filter (fun m => depth m =? 1)%nat Demo.filesystems.
Proof.
  repeat split; try reflexivity. vm_compute. discriminate.
Qed.

(** C4 fails as stated: an end offset below zero is not zero, and the size
    is computed from the begin offset. *)
Lemma minimum_size_of_negative_end :
  exists parted0 mkfs,
    _parse_script Dask.parse_bytes Demo.script_end_negative
    = Ok (parted0, [mkfs])
    /\ end_ mkfs = -1048576
    /\ begin mkfs = 1048576
    /\ minimum_size [mkfs] = 2148532224
    /\ minimum_size_nonzero [mkfs] = 2146435072
    /\ minimum_size [mkfs] <> minimum_size_nonzero [mkfs].
Proof.
  do 2 eexists. split; [ reflexivity | ].
  repeat split; try reflexivity. vm_compute. discriminate.
Qed.

Lemma run_commands_unresolved_witness :
  let pre := [ [Some "/usr/bin/parted"; Some "/dev/sda"; Some "mklabel";
                Some "msdos"] ] in
  let cmd := [None; Some "/dev/sda"] in
  let post := [ [Some "/usr/bin/partx"; Some "-vu"; Some "/dev/sda"] ] in
  let st1 :=
    {| world := [["/usr/bin/parted"; "/dev/sda"; "mklabel"; "msdos"]];
       log := [Print "CMD [ disk ] ==> /usr/bin/parted /dev/sda mklabel msdos";
               Run ["/usr/bin/parted"; "/dev/sda"; "mklabel"; "msdos"]] |} in
  let r := _run_commands Demo.which_no_partprobe Demo.World
             Demo.subprocess_run "disk" (pre ++ cmd :: post)%list Demo.start in
  (fst r = Raise TypeError \/ fst r = Raise FileNotFoundError)
  /\ exit_status (fst r) = 1
  /\ world (snd r) = world st1
  /\ executed (log (snd r)) = executed (log st1)
  /\ List.length (executed (log (snd r)))
     = (List.length (executed (log Demo.start)) + List.length pre)%nat.
Proof.
  intros pre cmd post st1.
  apply (run_commands_unresolved Demo.which_no_partprobe Demo.World
           Demo.subprocess_run "disk" pre post cmd Demo.start st1);
    reflexivity.
Defined.

(** C2 fails as stated: in format mode, when [partprobe] cannot be resolved,
    the run aborts, and [parted] has been executed by then. *)
Lemma format_runs_parted_before_unresolved_partprobe :
  let cmds := format_cmds Demo.which_no_partprobe "/dev/sda"
                [["mklabel"; "msdos"]] in
  let r := _format_disk Dask.parse_bytes Demo.which_no_partprobe Demo.World
             Demo.subprocess_run "disk" "/dev/sda" "mklabel msdos"
             Demo.start in
  existsb (unresolved Demo.which_no_partprobe) cmds = true
  /\ r = _run_commands Demo.which_no_partprobe Demo.World
           Demo.subprocess_run "disk" cmds Demo.start
  /\ fst r = Raise TypeError
  /\ executed (log (snd r))
     = [["/usr/bin/parted"; "/dev/sda"; "-a"; "optimal"; "-s"; "mklabel";
         "msdos"]]
  /\ executed (log (snd r)) <> [].
Proof.
  repeat split; try reflexivity. vm_compute. discriminate.
Qed.

Lemma run_commands_stops_at_failure_witness :
  let cmds := mount_cmds Demo.which_all "/dev/sda" "/mnt" true
                Demo.filesystems in
  let st1 :=
    {| world := [["/usr/bin/mkdir"; "-p"; "/mnt/boot"]];
       log := [Print "CMD [ disk ] ==> /usr/bin/mkdir -p /mnt/boot";
               Run ["/usr/bin/mkdir"; "-p"; "/mnt/boot"]] |} in
  let argv := ["/usr/bin/mount"; "/dev/sda1"; "/mnt/boot"] in
  let r := _run_commands Demo.which_all Demo.World Demo.subprocess_run "disk"
             (firstn 1 cmds ++ nth 1 cmds [] :: skipn 2 cmds)%list
             Demo.start in
  List.length cmds = 4%nat
  /\ fst r = Raise (SystemExit 1)
  /\ exit_status (fst r) <> 0
  /\ snd r
     = {| world := (world st1 ++ [argv])%list;
          log := (log st1
                  ++ [Print ("CMD [ " ++ "disk" ++ " ] ==> "
                             ++ Py.join " " argv);
                      Run argv])%list |}
  /\ executed (log (snd r)) = (executed (log st1) ++ [argv])%list.
Proof.
  intros cmds st1 argv. split; [ reflexivity | ].
  apply (run_commands_stops_at_failure Demo.which_all Demo.World
           Demo.subprocess_run "disk" (firstn 1 cmds) (skipn 2 cmds)
           (nth 1 cmds []) Demo.start st1 "/usr/bin/mount" "/usr/bin/mount"
           ["/dev/sda1"; "/mnt/boot"] (world st1 ++ [argv])%list 32);
    try reflexivity.
  discriminate.
Defined.

Lemma mkfs_unsupported_runs_nothing_witness :
  let run := _mkfs_disk Dask.parse_bytes Demo.which_all Demo.World
               Demo.subprocess_run "disk" "/dev/sda" Demo.script_btrfs in
  map fs (match _parse_script Dask.parse_bytes Demo.script_btrfs with
          | Ok p => snd p
          | Raise _ => []
          end) = ["ext4"; "btrfs"]
  /\ run Demo.start = (Raise RuntimeError, Demo.start)
  /\ exit_status (fst (run Demo.start)) <> 0
  /\ executed (log (snd (run Demo.start))) = executed (log Demo.start).
Proof.
  intros run. split; [ reflexivity | ].
  eapply (mkfs_unsupported_runs_nothing Dask.parse_bytes Demo.which_all
            Demo.World Demo.subprocess_run "disk" "/dev/sda"
            Demo.script_btrfs).
  - reflexivity.
  - eexists. split; [ right; left; reflexivity | ].
    split; discriminate.
Defined.

Lemma mkfs_scenario_witness :
  Dask.parse_bytes "1MiB" = Some 1048576
  /\ let script := "mkpart primary ext4 1MiB 100% # label=root mount=" in
     let cmds :=
       [ [Some "/usr/bin/mkfs.ext4"; Some "-L"; Some "root"; Some "/dev/sda1"];
         [Some "/usr/bin/partprobe"; Some "/dev/sda"];
         [Some "/usr/bin/partx"; Some "-vu"; Some "/dev/sda"] ] in
     (exists parted0 filesystems0,
        _parse_script Dask.parse_bytes script = Ok (parted0, filesystems0)
        /\ List.length filesystems0 = 1%nat
        /\ mkfs_cmds Demo.which_all "/dev/sda" filesystems0 = Ok cmds)
     /\ _mkfs_disk Dask.parse_bytes Demo.which_all Demo.World
          Demo.subprocess_run "disk" "/dev/sda" script Demo.start
        = _run_commands Demo.which_all Demo.World Demo.subprocess_run "disk"
            cmds Demo.start.
Proof.
  split; [ reflexivity | ].
  apply (mkfs_scenario Dask.parse_bytes Demo.which_all Demo.World
           Demo.subprocess_run "disk" 1048576 Demo.start).
  reflexivity.
Defined.

(** ** Further examples *)

(** The device names of the three kinds of devices. *)
Example make_partition_examples :
  _make_partition "/dev/sda" 1 = "/dev/sda1"
  /\ _make_partition "/dev/mmcblk0" 1 = "/dev/mmcblk0p1"
  /\ _make_partition "/dev/loop0" 2 = "/dev/loop0p2".
Proof. repeat split. Qed.

(** Nested mount paths are mounted parents first and unmounted children
    first. *)
Example mount_order_nested :
  let part n path := Build_Mkfs n "ext4" "" "" path 0 0 in
  let l := [part 1 "a/b/c"; part 2 "a"; part 3 "a/b"] in
  map mount (mount_order l true) = ["a"; "a/b"; "a/b/c"]
  /\ map mount (mount_order l false) = ["a/b/c"; "a/b"; "a"].
Proof. split; reflexivity. Qed.

(** The executed programs of the mkfs scenario, when every program is found
    and succeeds. *)
Example mkfs_scenario_run :
  let r := _mkfs_disk Dask.parse_bytes Demo.which_all Demo.World
             Demo.subprocess_run "disk" "/dev/sda"
             "mkpart primary ext4 1MiB 100% # label=root mount="
             Demo.start in
  fst r = Ok tt
  /\ executed (log (snd r))
     = [ ["/usr/bin/mkfs.ext4"; "-L"; "root"; "/dev/sda1"];
         ["/usr/bin/partprobe"; "/dev/sda"];
         ["/usr/bin/partx"; "-vu"; "/dev/sda"] ].
Proof. split; reflexivity. Qed.

(** The pieces of Python that the parser relies on. *)
Example split_examples :
  Py.split "/" "a//b/" = ["a"; ""; "b"; ""]
  /\ Py.split_ws "  mkpart  primary ext4 " = ["mkpart"; "primary"; "ext4"]
  /\ Py.findall_key_value " label=root mount= reserved=1 a=b=c"
     = [("label", "root"); ("reserved", "1"); ("a", "b=c")]
  /\ Py.dict_get "k" "" [("k", "1"); ("j", "2"); ("k", "3")] = "3".
Proof. repeat split. Qed.

(** ** The further properties on concrete scripts *)


Lemma line_is_cut_at_first_hash_witness :
  Py.all_chars (fun c => negb (Ascii.eqb c "#")) "mklabel msdos " = true
  /\ tokens ("mklabel msdos " ++ String "#" " mkpart primary # x")
     = Py.split_ws "mklabel msdos "
  /\ comment ("mklabel msdos " ++ String "#" " mkpart primary # x")
     = " mkpart primary # x"
  /\ is_mkpart (tokens ("mklabel msdos " ++ String "#" " mkpart primary # x"))
     = is_mkpart (Py.split_ws "mklabel msdos ")
  /\ tokens "mklabel msdos " = Py.split_ws "mklabel msdos "
  /\ comment "mklabel msdos " = "".
Proof.
  split; [ reflexivity | ].
  apply (line_is_cut_at_first_hash "mklabel msdos " " mkpart primary # x").
  reflexivity.
Defined.

Lemma parse_script_raw_words_witness :
  _parse_script Dask.parse_bytes Demo.script
  = Ok (Demo.parted, Demo.filesystems)
  /\ Forall
       (Forall (fun tok =>
                  tok <> ""
                  /\ Py.all_chars
                       (fun c => negb (Py.isspace c)
                                 && negb (Ascii.eqb c "#")) tok
                     = true))
       Demo.parted.
Proof.
  split; [ reflexivity | ].
  apply (parse_script_raw_words Dask.parse_bytes Demo.script Demo.parted
           Demo.filesystems).
  reflexivity.
Defined.

Lemma make_partition_by_device_name_witness :
  Py.all_chars (fun c => negb (Ascii.eqb c "/")) "mmcblk0" = true
  /\ _make_partition ("/dev" ++ String "/" "mmcblk0") 1
     = ("/dev" ++ String "/" "mmcblk0")
       ++ (if Py.startswith "mmcblk" "mmcblk0" || Py.startswith "loop" "mmcblk0"
           then "p" else "")
       ++ Py.str_of_int 1.
Proof.
  split; [ reflexivity | ].
  apply (make_partition_by_device_name "/dev" "mmcblk0" 1).
  reflexivity.
Defined.

Lemma run_commands_all_succeed_witness :
  (forall cmd,
     In cmd (reread_cmds Demo.which_all "/dev/sda") ->
     exists argv,
       argv_of Demo.which_all cmd = Some argv
       /\ forall w, snd (Demo.subprocess_run w argv) = 0)
  /\ fst (_run_commands Demo.which_all Demo.World Demo.subprocess_run "disk"
         (reread_cmds Demo.which_all "/dev/sda") Demo.start)
  = Ok tt
  /\ exists argvs,
       map (argv_of Demo.which_all) (reread_cmds Demo.which_all "/dev/sda")
       = map Some argvs
       /\ executed
            (log (snd (_run_commands Demo.which_all Demo.World
                         Demo.subprocess_run "disk"
                         (reread_cmds Demo.which_all "/dev/sda") Demo.start)))
          = (executed (log Demo.start) ++ argvs)%list.
Proof.
  assert (H : forall cmd,
            In cmd (reread_cmds Demo.which_all "/dev/sda") ->
            exists argv,
              argv_of Demo.which_all cmd = Some argv
              /\ forall w, snd (Demo.subprocess_run w argv) = 0).
  { intros cmd [<- | [<- | []]]; eexists; split;
      try reflexivity; intros w; reflexivity. }
  split; [ exact H | ].
  apply (run_commands_all_succeed Demo.which_all Demo.World
           Demo.subprocess_run "disk" (reread_cmds Demo.which_all "/dev/sda")
           Demo.start).
  exact H.
Defined.

Lemma mkfs_targets_partitions_in_order_witness :
  _parse_script Dask.parse_bytes Demo.script
  = Ok (Demo.parted, Demo.filesystems)
  /\ forallb supported Demo.filesystems = true
  /\ exists body,
       mkfs_cmds Demo.which_all "/dev/sda" Demo.filesystems
       = Ok (body ++ reread_cmds Demo.which_all "/dev/sda")%list
       /\ map (hd None) body
          = map (fun m => Demo.which_all (mkfs_program m)) Demo.filesystems
       /\ map (fun cmd => last cmd None) body
          = map (fun k => Some (_make_partition "/dev/sda" (Z.of_nat k)))
              (seq 1 (List.length Demo.filesystems)).
Proof.
  split; [ reflexivity | ]. split; [ reflexivity | ].
  apply (mkfs_targets_partitions_in_order Dask.parse_bytes Demo.which_all
           "/dev/sda" Demo.script Demo.parted Demo.filesystems);
    reflexivity.
Defined.

Lemma format_replays_lines_witness :
  _parse_script Dask.parse_bytes Demo.script
  = Ok (Demo.parted, Demo.filesystems)
  /\ _format_disk Dask.parse_bytes Demo.which_all Demo.World
       Demo.subprocess_run "disk" "/dev/sda" Demo.script Demo.start
     = _run_commands Demo.which_all Demo.World Demo.subprocess_run "disk"
         (map (fun line =>
                 [Demo.which_all "parted"; Some "/dev/sda"; Some "-a";
                  Some "optimal"; Some "-s"] ++ map Some (tokens line))%list
              (script_lines Demo.script)
          ++ reread_cmds Demo.which_all "/dev/sda")%list Demo.start
  /\ List.length (format_cmds Demo.which_all "/dev/sda" Demo.parted)
     = (List.length (script_lines Demo.script) + 2)%nat.
Proof.
  split; [ reflexivity | ].
  apply (format_replays_lines Dask.parse_bytes Demo.which_all Demo.World
           Demo.subprocess_run "disk" "/dev/sda" Demo.script Demo.parted
           Demo.filesystems Demo.start).
  reflexivity.
Defined.

Lemma main_usage_error_witness :
  valid_invocation ["mkfs"] = false
  /\ exists message,
       main Dask.parse_bytes Demo.which_all Demo.World Demo.subprocess_run
         "disk" ["mkfs"] Demo.script Demo.start
       = (Raise (SystemExitUsage message), Demo.start).
Proof.
  split; [ reflexivity | ].
  apply (main_usage_error Dask.parse_bytes Demo.which_all Demo.World
           Demo.subprocess_run "disk" ["mkfs"] Demo.script Demo.start).
  reflexivity.
Defined.

Lemma main_parse_error_witness :
  _parse_script Dask.parse_bytes Demo.script_short = Raise AssertionError
  /\ snd (main Dask.parse_bytes Demo.which_all Demo.World Demo.subprocess_run
            "disk" ["format"; "/dev/sda"] Demo.script_short Demo.start)
     = Demo.start
  /\ exit_status
       (fst (main Dask.parse_bytes Demo.which_all Demo.World
               Demo.subprocess_run "disk" ["format"; "/dev/sda"]
               Demo.script_short Demo.start))
     = 1.
Proof.
  split; [ reflexivity | ].
  apply (main_parse_error Dask.parse_bytes Demo.which_all Demo.World
           Demo.subprocess_run "disk" ["format"; "/dev/sda"]
           Demo.script_short AssertionError Demo.start).
  reflexivity.
Defined.

Lemma print_size_prints_witness :
  _parse_script Dask.parse_bytes Demo.script
  = Ok (Demo.parted, Demo.filesystems)
  /\ main Dask.parse_bytes Demo.which_all Demo.World Demo.subprocess_run
       "disk" ["print-size"] Demo.script Demo.start
     = (Ok tt,
        {| world := world Demo.start;
           log := (log Demo.start
                   ++ [Print (Py.str_of_int
                                (minimum_size Demo.filesystems))])%list |})
  /\ minimum_size Demo.filesystems mod 4096 = 0
  /\ executed
       (log (snd (main Dask.parse_bytes Demo.which_all Demo.World
                    Demo.subprocess_run "disk" ["print-size"] Demo.script
                    Demo.start)))
     = executed (log Demo.start).
Proof.
  split; [ reflexivity | ].
  apply (print_size_prints Dask.parse_bytes Demo.which_all Demo.World
           Demo.subprocess_run "disk" Demo.script Demo.parted
           Demo.filesystems Demo.start).
  reflexivity.
Defined.

Lemma script_without_comments_witness :
  _parse_script Dask.parse_bytes Demo.script_plain
  = Ok ([["mklabel"; "msdos"]; ["mkpart"; "primary"; "ext4"; "1MiB"; "100%"]],
        [Build_Mkfs 1 "ext4" "" "" "" 1048576 0])
  /\ Py.all_chars (fun c => negb (Ascii.eqb c "#")) Demo.script_plain = true
  /\ Forall (fun m => label m = "" /\ reserved m = "" /\ mount m = "")
       [Build_Mkfs 1 "ext4" "" "" "" 1048576 0]
  /\ mount_cmds Demo.which_all "/dev/sda" "/mnt" true
       [Build_Mkfs 1 "ext4" "" "" "" 1048576 0] = []
  /\ _mount_disk Dask.parse_bytes Demo.which_all Demo.World
       Demo.subprocess_run "disk" "/dev/sda" "/mnt" true Demo.script_plain
       Demo.start
     = (Ok tt, Demo.start).
Proof.
  split; [ reflexivity | ]. split; [ reflexivity | ].
  apply (script_without_comments Dask.parse_bytes Demo.which_all Demo.World
           Demo.subprocess_run "disk" Demo.script_plain "/dev/sda" "/mnt" true
           [["mklabel"; "msdos"];
            ["mkpart"; "primary"; "ext4"; "1MiB"; "100%"]]);
    reflexivity.
Defined.
